(** * Antipasti layers (arch.py): shape inference of the architectural layers

    A shallow embedding of [Antipasti/layers/arch.py]: the five layer classes
    [ReplicateLayer], [ConcatenateLayer], [AddLayer], [IdentityLayer] and
    [FunctionLayer], their constructors and their [infer_output_shape] and
    [feedforward] methods.

    Python values are modelled as the code uses them: a dimension is [None]
    or an [int], a shape is a list of dimensions, and the [input_shape]
    argument is a Python list whose elements are dimensions (one input) or
    shapes (several inputs).  Exceptions are modelled by an error monad; the
    methods are embedded as their bodies (the wrappers [utils.forward_pass]
    and [utils.shape_inference] live outside this file of the repository). *)

From stdpp Require Import base list gmap.
From Stdlib Require Import ZArith.

Open Scope Z_scope.

(** ** Exceptions and the error monad *)

(** The Python exception classes that the code of [arch.py] can raise. *)
Inductive exn : Set :=
  | ValueError
  | AssertionError
  | IndexError
  | TypeError.

Inductive result (A : Type) : Type :=
  | Ok (a : A)
  | Raise (e : exn).
Arguments Ok {A} a.
Arguments Raise {A} e.

#[global] Instance exn_eq_dec : EqDecision exn.
Proof. solve_decision. Defined.

#[global] Instance result_ret : MRet result := fun _ a => Ok a.
#[global] Instance result_bind : MBind result := fun _ _ f m =>
  match m with
  | Ok a => f a
  | Raise e => Raise e
  end.

(** [assert cond] *)
Definition py_assert (cond : bool) : result unit :=
  if cond then Ok tt else Raise AssertionError.

(** [a and b], where [b] is evaluated only when [a] is true. *)
Definition py_and (a : bool) (b : result bool) : result bool :=
  if a then b else Ok false.

(** A list comprehension [[f x for x in l]]: the elements are evaluated from
    left to right and the first exception aborts the comprehension. *)
Fixpoint py_comprehension {A B} (f : A → result B) (l : list A) : result (list B) :=
  match l with
  | [] => Ok []
  | x :: l' => y ← f x; ys ← py_comprehension f l'; mret (y :: ys)
  end.

(** [all(l)] on a list of booleans. *)
Definition py_all (l : list bool) : bool := forallb id l.

(** ** Python lists: indexing, slicing, repetition *)

(** The position that a (possibly negative) index denotes in a list of
    length [n], before any range check. *)
Definition py_norm_index (n : nat) (i : Z) : Z :=
  if i <? 0 then Z.of_nat n + i else i.

(** [l[i]]: raises [IndexError] out of range. *)
Definition py_getitem {A} (l : list A) (i : Z) : result A :=
  let j := py_norm_index (length l) i in
  if j <? 0 then Raise IndexError
  else match l !! Z.to_nat j with
       | Some x => Ok x
       | None => Raise IndexError
       end.

(** Slice bounds are clamped to [[0, len]]. *)
Definition py_clamp (n : nat) (i : Z) : nat :=
  Z.to_nat (Z.max 0 (Z.min (Z.of_nat n) (py_norm_index n i))).

(** [l[:stop]] and [l[0:stop]] *)
Definition py_slice_to {A} (l : list A) (stop : Z) : list A :=
  take (py_clamp (length l) stop) l.

(** [l[start:]] *)
Definition py_slice_from {A} (l : list A) (start : Z) : list A :=
  drop (py_clamp (length l) start) l.

(** [[x] * n]: the list holding [n] times the very same [x]; empty for
    [n <= 0]. *)
Definition py_list_repeat {A} (x : A) (n : Z) : list A :=
  replicate (Z.to_nat n) x.

(** ** Shapes *)

(** A dimension: [None] (unknown) or an [int]. *)
Definition dim : Type := option Z.

(** A shape descriptor: a list of dimensions. *)
Definition shape : Type := list dim.

(** An element of the list passed as [input_shape]: a dimension when the list
    is the shape of a single input, a shape when it is a list of shapes. *)
Inductive pyelem : Type :=
  | Dim (d : dim)
  | Shp (s : shape).

#[global] Instance pyelem_eq_dec : EqDecision pyelem.
Proof. solve_decision. Defined.

Definition is_list (e : pyelem) : bool :=
  match e with
  | Shp _ => true
  | Dim _ => false
  end.

(** Subscripting an element: a dimension ([None] or an [int]) is not
    subscriptable. *)
Definition elem_slice_to (e : pyelem) (stop : Z) : result shape :=
  match e with
  | Shp s => Ok (py_slice_to s stop)
  | Dim _ => Raise TypeError
  end.

Definition elem_slice_from (e : pyelem) (start : Z) : result shape :=
  match e with
  | Shp s => Ok (py_slice_from s start)
  | Dim _ => Raise TypeError
  end.

Definition elem_getitem (e : pyelem) (i : Z) : result dim :=
  match e with
  | Shp s => py_getitem s i
  | Dim _ => Raise TypeError
  end.

(** [sum(l)] on a list of dimensions: [0 + l[0] + l[1] + ...]; adding [None]
    to an [int] raises [TypeError]. *)
Fixpoint py_sum_from (acc : Z) (l : list dim) : result Z :=
  match l with
  | [] => Ok acc
  | Some n :: l' => py_sum_from (acc + n) l'
  | None :: l' => Raise TypeError
  end.

Definition py_sum (l : list dim) : result Z := py_sum_from 0 l.

(** [None in l] *)
Definition none_in (l : list dim) : bool :=
  existsb (fun d => match d with None => true | Some _ => false end) l.

(** ** Helpers of [utils] and [pykit] *)

Module py.

(** Modelled from the spec: [pykit.islistoflists] is not in this file of the
    repository.  The spec describes it as the structural check that a value
    is a sequence of shape descriptors rather than a single one: every
    element of the list is itself a list. *)
Definition islistoflists (l : list pyelem) : bool := forallb is_list l.

End py.

Module utils.

(** Modelled from the spec: the comparison of two dimensions used by
    [utils.compare_shapes], which is not in this file of the repository.
    Two dimensions are compatible when both are known and equal, or, in soft
    mode, when either side is unknown; in non-soft mode an unknown dimension
    still matches whatever the other side is. *)
Definition compare_dims (soft : bool) (a b : dim) : bool :=
  match a, b with
  | Some m, Some n => m =? n
  | _, _ => if soft then true else true
  end.

(** Modelled from the spec: [utils.compare_shapes] is not in this file of the
    repository.  Two shape descriptors are compatible when they have the same
    length and their dimensions are compatible position by position. *)
Definition compare_shapes (a b : shape) (soft : bool) : bool :=
  (length a =? length b)%nat &&
  forallb (fun p => compare_dims soft p.1 p.2) (zip a b).

(** [compare_shapes] applied to elements of [input_shape]; the spec defines
    it on shape descriptors, and both callers only reach it once
    [islistoflists] holds. *)
Definition compare_elems (a b : pyelem) (soft : bool) : result bool :=
  match a, b with
  | Shp s, Shp t => Ok (compare_shapes s t soft)
  | _, _ => Raise TypeError
  end.

End utils.

(** ** The collaborators of the layers

    The base class [Layer], the input-shape resolver [utils.get_input_shape]
    and the parameter registry are outside this file of the repository; the
    layers are embedded over any implementation of them. *)
Class Collaborators : Type := {
  (** the keyword arguments forwarded to [Layer.__init__] *)
  layer_kwargs : Type;
  (** [Layer.__init__], called with the forwarded keyword arguments *)
  Layer_init : layer_kwargs → result unit;
  (** the values accepted for the [dimensions] argument *)
  dimensions_arg : Type;
  (** [utils.get_input_shape(dimensions, num_inputs, known_input_shape)]: the
      resolved input shape, and the number of inputs it stands for, which
      the base class exposes as [self.num_inputs]. *)
  get_input_shape :
    option dimensions_arg → option Z → option (list pyelem) →
    result (list pyelem * Z);
  (** the values that flow through [feedforward] *)
  value : Type;
  (** parameter handles, and [Layer.register_parameter] *)
  parameter : Type;
  register_parameter : parameter → result unit;
}.

(** A value passed for an argument that is expected to be a function:
    [None], a callable, or any other (non-callable) object. *)
Inductive pyarg (F : Type) : Type :=
  | PyNone
  | PyCallable (f : F)
  | PyObject.
Arguments PyNone {F}.
Arguments PyCallable {F} f.
Arguments PyObject {F}.

Definition callable {F} (x : pyarg F) : bool :=
  match x with
  | PyCallable _ => true
  | _ => false
  end.

Definition is_not_None {F} (x : pyarg F) : bool :=
  match x with
  | PyNone => false
  | _ => true
  end.

(** ** ReplicateLayer *)
Module ReplicateLayer.
Section with_collaborators.
Context `{Collaborators}.

Record t : Type := {
  num_replicate : Z;
  input_shape : list pyelem;
}.

Definition init (num_replicate : Z) (dimensions : option dimensions_arg)
    (input_shape : option (list pyelem)) (kwargs : layer_kwargs) : result t :=
  _ ← Layer_init kwargs;
  r ← get_input_shape dimensions (Some 1) input_shape;
  mret {| num_replicate := num_replicate; input_shape := r.1 |}.

Definition feedforward {A} (self : t) (input : A) : list A :=
  py_list_repeat input (num_replicate self).

Definition infer_output_shape {A} (self : t) (input_shape : A) : list A :=
  py_list_repeat input_shape (num_replicate self).
End with_collaborators.
End ReplicateLayer.

(** ** ConcatenateLayer *)
Module ConcatenateLayer.
Section with_collaborators.
Context `{Collaborators}.

Record t : Type := {
  axis : Z;
  input_shape : list pyelem;
  num_inputs : Z;
}.

Definition supported_axes : list Z := [0; 1; 2; 3; 4; -1].

(** [axis] defaults to [-1] when the caller omits it. *)
Definition init (num_inputs : option Z) (axis : Z)
    (dimensions : option dimensions_arg)
    (input_shape : option (list pyelem)) (kwargs : layer_kwargs) : result t :=
  _ ← Layer_init kwargs;
  _ ← py_assert (bool_decide (axis ∈ supported_axes));
  r ← get_input_shape dimensions num_inputs input_shape;
  mret {| axis := axis; input_shape := r.1; num_inputs := r.2 |}.

Definition infer_output_shape (self : t) (input_shape : list pyelem) : result shape :=
  let input_shape_ok := py.islistoflists input_shape in
  input_shape_ok ←
    (if axis self =? -1 then
       py_and input_shape_ok
         (bs ← py_comprehension (fun ishp =>
                 a ← elem_slice_to ishp (axis self);
                 first ← py_getitem input_shape 0;
                 b ← elem_slice_to first (axis self);
                 mret (utils.compare_shapes a b false)) input_shape;
          mret (py_all bs))
     else
       py_and input_shape_ok
         (bs ← py_comprehension (fun ishp =>
                 a1 ← elem_slice_to ishp (axis self);
                 a2 ← elem_slice_from ishp (axis self + 1);
                 first ← py_getitem input_shape 0;
                 b1 ← elem_slice_to first (axis self);
                 first' ← py_getitem input_shape 0;
                 b2 ← elem_slice_from first' (axis self + 1);
                 mret (utils.compare_shapes (a1 ++ a2) (b1 ++ b2) false))
               input_shape;
          mret (py_all bs)));
  if negb input_shape_ok then Raise ValueError
  else
    (* Compute output shape *)
    first ← py_getitem input_shape 0;
    pre ← elem_slice_to first (axis self);
    col ← py_comprehension (fun ishp => elem_getitem ishp (axis self)) input_shape;
    mid ← (if negb (none_in col) then
             col' ← py_comprehension (fun ishp => elem_getitem ishp (axis self))
                      input_shape;
             s ← py_sum col';
             mret (Some s)
           else mret None);
    suf ← (if negb (axis self =? -1) then
             first' ← py_getitem input_shape 0;
             elem_slice_from first' (axis self + 1)
           else mret []);
    mret ((pre ++ [mid]) ++ suf).
End with_collaborators.
End ConcatenateLayer.

(** ** AddLayer *)
Module AddLayer.
Section with_collaborators.
Context `{Collaborators}.

Record t : Type := {
  input_shape : list pyelem;
  num_inputs : Z;
}.

Definition init (num_inputs : option Z) (dimensions : option dimensions_arg)
    (input_shape : option (list pyelem)) (kwargs : layer_kwargs) : result t :=
  _ ← Layer_init kwargs;
  r ← get_input_shape dimensions num_inputs input_shape;
  let self := {| input_shape := r.1; num_inputs := r.2 |} in
  let '{| num_inputs := self_num_inputs |} := self in
  if negb (1 <? self_num_inputs) then Raise ValueError
  else mret self.

Definition infer_output_shape (self : t) (input_shape : list pyelem) : result pyelem :=
  _ ← py_assert (py.islistoflists input_shape);
  _ ← py_assert (Z.of_nat (length input_shape) =? num_inputs self);
  bs ← py_comprehension (fun _input_shape =>
          first ← py_getitem input_shape 0;
          utils.compare_elems _input_shape first true) input_shape;
  _ ← py_assert (py_all bs);
  output_shape ← py_getitem input_shape 0;
  mret output_shape.
End with_collaborators.
End AddLayer.

(** ** IdentityLayer *)
Module IdentityLayer.
Section with_collaborators.
Context `{Collaborators}.

Record t : Type := {
  input_shape : list pyelem;
}.

Definition init (dimensions : option dimensions_arg)
    (input_shape : option (list pyelem)) (kwargs : layer_kwargs) : result t :=
  _ ← Layer_init kwargs;
  r ← get_input_shape dimensions (Some 1) input_shape;
  mret {| input_shape := r.1 |}.

Definition feedforward {A} (self : t) (input : A) : A := input.

Definition infer_output_shape {A} (self : t) (input_shape : A) : A := input_shape.
End with_collaborators.
End IdentityLayer.

(** ** FunctionLayer *)
Module FunctionLayer.
Section with_collaborators.
Context `{Collaborators}.

Record t : Type := {
  function : value → result value;
  shape_inference_function : list pyelem → result (list pyelem);
  input_shape : list pyelem;
  num_inputs : Z;
}.

(** [for parameter in parameters: self.register_parameter(parameter)];
    iterating over [None] raises [TypeError]. *)
Definition register_all (parameters : option (list parameter)) : result unit :=
  match parameters with
  | None => Raise TypeError
  | Some ps => _ ← py_comprehension register_parameter ps; mret tt
  end.

(** [shape_inference_function] and [parameters] default to [None] when
    the caller omits them. *)
Definition init (function : pyarg (value → result value))
    (shape_inference_function : pyarg (list pyelem → result (list pyelem)))
    (parameters : option (list parameter))
    (num_inputs : option Z) (dimensions : option dimensions_arg)
    (input_shape : option (list pyelem)) (kwargs : layer_kwargs) : result t :=
  _ ← Layer_init kwargs;
  match function with
  | PyCallable f =>
      if is_not_None shape_inference_function
         && negb (callable shape_inference_function)
      then Raise ValueError
      else
        let sif :=
          match shape_inference_function with
          | PyCallable g => g
          | _ => fun _input_shape => Ok _input_shape
          end in
        r ← get_input_shape dimensions num_inputs input_shape;
        _ ← register_all parameters;
        mret {| function := f; shape_inference_function := sif;
                input_shape := r.1; num_inputs := r.2 |}
  | _ => Raise ValueError
  end.

Definition feedforward (self : t) (input : value) : result value :=
  function self input.

Definition infer_output_shape (self : t) (input_shape : list pyelem)
    : result (list pyelem) :=
  shape_inference_function self input_shape.
End with_collaborators.
End FunctionLayer.

(** ** Vocabulary of the specification *)

(** Two shape descriptors are compatible: same length, and no position holds
    two differing known values. *)
Definition shapes_compatible (p q : shape) : Prop :=
  length p = length q ∧
  ∀ (j : nat) (m n : Z), p !! j = Some (Some m) → q !! j = Some (Some n) → m = n.

(** The dimensions of a descriptor at the positions other than the axis: for
    axis [-1] the dimensions before the last position, for an axis [k >= 0]
    the dimensions before position [k] followed by those after it. *)
Definition non_axis_dims (a : Z) (s : shape) : shape :=
  if a =? -1 then take (length s - 1)%nat s
  else take (Z.to_nat a) s ++ drop (S (Z.to_nat a)) s.

(** The descriptor has a dimension at the axis. *)
Definition has_axis (a : Z) (s : shape) : Prop :=
  if a =? -1 then s ≠ [] else 0 ≤ a < Z.of_nat (length s).

(** The inputs of a concatenation are consistent: every descriptor agrees
    with the first one outside the axis. *)
Definition consistent (a : Z) (shapes : list shape) : Prop :=
  ∀ s0 s, head shapes = Some s0 → s ∈ shapes →
    shapes_compatible (non_axis_dims a s) (non_axis_dims a s0).

(** A descriptor cut at the axis: the prefix before the axis, the dimension
    at the axis and the suffix after it. *)
Record split_shape : Type := {
  before : shape;
  at_axis : dim;
  after : shape;
}.

Definition join (x : split_shape) : shape := before x ++ at_axis x :: after x.

(** The cut is at axis [a]: the suffix is empty for the last axis [-1], and
    the prefix has [a] dimensions otherwise. *)
Definition split_at (a : Z) (x : split_shape) : Prop :=
  if a =? -1 then after x = [] else Z.of_nat (length (before x)) = a.

Definition sum_Z (l : list Z) : Z := foldr Z.add 0 l.

(** A list of shape descriptors, as the value passed for [input_shape]. *)
Definition list_of_shapes (shapes : list shape) : list pyelem := Shp <$> shapes.

(** The condition checked by [AddLayer.infer_output_shape]: a list of
    [n] shape descriptors, each compatible with the first. *)
Definition add_inputs_ok (n : Z) (v : list pyelem) : Prop :=
  ∃ shapes, v = list_of_shapes shapes ∧ Z.of_nat (length shapes) = n ∧
    ∀ s0 s, head shapes = Some s0 → s ∈ shapes → shapes_compatible s s0.

(** ** Objects and references

    [feedforward] receives a reference to an object of the store; the
    replicated list holds references, not copies. *)
Definition loc : Type := positive.

(** ** A stand-in for the collaborators, to run the layers on examples *)
Definition example_collaborators : Collaborators := {|
  layer_kwargs := unit;
  Layer_init := fun _ => Ok tt;
  dimensions_arg := Z;
  get_input_shape := fun _ _ known =>
    match known with
    | Some s => Ok (s, if py.islistoflists s then Z.of_nat (length s) else 1)
    | None => Raise ValueError
    end;
  value := Z;
  parameter := unit;
  register_parameter := fun _ => Ok tt;
|}.

(** The dimension of a concatenation at the axis, from the inputs'
    dimensions there: their sum when all are known, unknown otherwise. *)
Definition concat_dim (col : list dim) : dim :=
  if none_in col then None else Some (sum_Z (omap id col)).

(** The possible outcomes of a comprehension of subscripts run over two
    orderings of the same inputs: the same values up to order, or an
    [IndexError] on both sides. *)
Definition same_column (r r' : result (list dim)) : Prop :=
  (∃ col col', r = Ok col ∧ r' = Ok col' ∧ col ≡ₚ col')
  ∨ (r = Raise IndexError ∧ r' = Raise IndexError).

(** * Properties *)

(** ** The error monad *)

Lemma bind_Ok {A B} (f : A → result B) (a : A) : (Ok a ≫= f) = f a.
Proof. reflexivity. Qed.

Lemma bind_Raise {A B} (f : A → result B) (e : exn) : (Raise e ≫= f) = Raise e.
Proof. reflexivity. Qed.

Lemma py_comprehension_pure {A B} (f : A → B) (l : list A) :
  py_comprehension (fun x => Ok (f x)) l = Ok (f <$> l).
Proof.
  induction l as [|x l IH]; simpl; [done|].
  by rewrite IH.
Qed.

Lemma py_comprehension_ext {A B} (f g : A → result B) (l : list A) :
  Forall (fun x => f x = g x) l → py_comprehension f l = py_comprehension g l.
Proof.
  induction 1 as [|x l Hx _ IH]; simpl; [done|].
  by rewrite Hx, IH.
Qed.

Lemma py_comprehension_fmap {A B C} (f : B → result C) (g : A → B) (l : list A) :
  py_comprehension f (g <$> l) = py_comprehension (f ∘ g) l.
Proof.
  induction l as [|x l IH]; csimpl; [done|].
  by rewrite IH.
Qed.

(** ** Lists of lists *)

Lemma islistoflists_spec (v : list pyelem) :
  py.islistoflists v = true ↔ ∃ shapes, v = list_of_shapes shapes.
Proof.
  unfold py.islistoflists, list_of_shapes. split.
  - induction v as [|e v IH]; simpl; intros Hv.
    + by exists [].
    + apply andb_prop in Hv as [He Hv]. destruct (IH Hv) as [shapes ->].
      destruct e as [d|s]; [done|]. by exists (s :: shapes).
  - intros [shapes ->]. induction shapes as [|s shapes IH]; simpl; done.
Qed.

Lemma islistoflists_shapes (shapes : list shape) :
  py.islistoflists (list_of_shapes shapes) = true.
Proof. apply islistoflists_spec. by exists shapes. Qed.

(** ** Comparison of shapes *)

Lemma compare_dims_spec soft (a b : dim) :
  utils.compare_dims soft a b = true ↔ ∀ m n, a = Some m → b = Some n → m = n.
Proof.
  destruct a as [m|], b as [n|]; simpl.
  - rewrite Z.eqb_eq. split; [by intros -> ?? [= <-] [= <-]|by intros Hc; apply Hc].
  - destruct soft; split; done.
  - destruct soft; split; done.
  - destruct soft; split; done.
Qed.

Lemma compare_shapes_spec (p q : shape) soft :
  utils.compare_shapes p q soft = true ↔ shapes_compatible p q.
Proof.
  unfold utils.compare_shapes, shapes_compatible.
  rewrite andb_true_iff, Nat.eqb_eq.
  split; intros [Hlen Hall]; (split; [done|]).
  - revert q Hlen Hall. induction p as [|a p IH]; intros [|b q] Hlen Hall j m n; try done.
    simpl in Hall. apply andb_prop in Hall as [Hab Hall].
    destruct j as [|j]; simpl.
    + intros [= ->] [= ->]. by eapply compare_dims_spec.
    + apply IH; [by injection Hlen|done].
  - revert q Hlen Hall. induction p as [|a p IH]; intros [|b q] Hlen Hall; try done.
    simpl. apply andb_true_intro; split.
    + apply compare_dims_spec. intros m n -> ->. by apply (Hall 0%nat).
    + apply IH; [by injection Hlen|]. intros j. apply (Hall (S j)).
Qed.

Lemma shapes_compatible_refl (p : shape) : shapes_compatible p p.
Proof. split; [done|]. intros j m n Hm Hn. congruence. Qed.

(** ** Indexing and slicing *)

Section slicing.
Context {A : Type}.
Implicit Types (l : list A) (a : Z).

Lemma py_slice_to_nonneg l a : 0 ≤ a → py_slice_to l a = take (Z.to_nat a) l.
Proof.
  intros Ha. unfold py_slice_to, py_clamp, py_norm_index.
  destruct (Z.ltb_spec a 0) as [|_]; [lia|].
  destruct (Z.le_gt_cases a (Z.of_nat (length l))) as [Hle|Hgt].
  - f_equal. lia.
  - rewrite !take_ge by lia. done.
Qed.

Lemma py_slice_from_nonneg l a : 0 ≤ a → py_slice_from l a = drop (Z.to_nat a) l.
Proof.
  intros Ha. unfold py_slice_from, py_clamp, py_norm_index.
  destruct (Z.ltb_spec a 0) as [|_]; [lia|].
  destruct (Z.le_gt_cases a (Z.of_nat (length l))) as [Hle|Hgt].
  - f_equal. lia.
  - rewrite !drop_ge by lia. done.
Qed.

Lemma py_slice_to_last l : py_slice_to l (-1) = take (length l - 1)%nat l.
Proof. unfold py_slice_to, py_clamp, py_norm_index. simpl. f_equal. lia. Qed.

Lemma py_getitem_nonneg l a :
  0 ≤ a →
  py_getitem l a =
    match l !! Z.to_nat a with Some x => Ok x | None => Raise IndexError end.
Proof.
  intros Ha. unfold py_getitem, py_norm_index.
  destruct (Z.ltb_spec a 0) as [|_]; [lia|].
  destruct (Z.ltb_spec a 0) as [|_]; [lia|]. done.
Qed.

Lemma py_getitem_head l x : py_getitem (x :: l) 0 = Ok x.
Proof. done. Qed.

Lemma py_getitem_nil a : py_getitem (@nil A) a = Raise IndexError.
Proof.
  unfold py_getitem. destruct (_ <? 0); [done|].
  by rewrite lookup_nil.
Qed.

Lemma py_getitem_last l x : py_getitem (l ++ [x]) (-1) = Ok x.
Proof.
  unfold py_getitem, py_norm_index. simpl. rewrite length_app. simpl.
  destruct (Z.ltb_spec (Z.of_nat (length l + 1) + -1) 0) as [|_]; [lia|].
  replace (Z.to_nat (Z.of_nat (length l + 1) + -1)) with (length l + 0)%nat by lia.
  by rewrite lookup_app_r, Nat.add_0_r, Nat.sub_diag by lia.
Qed.

Lemma py_getitem_middle l1 l2 x a :
  Z.of_nat (length l1) = a → py_getitem (l1 ++ x :: l2) a = Ok x.
Proof.
  intros <-. rewrite py_getitem_nonneg by lia.
  by rewrite Nat2Z.id, list_lookup_middle.
Qed.

(** Indexing succeeds exactly on the lists that have the position. *)
Lemma py_getitem_ok l a :
  (if a =? -1 then l ≠ [] else 0 ≤ a < Z.of_nat (length l)) →
  ∃ x, py_getitem l a = Ok x.
Proof.
  destruct (Z.eqb_spec a (-1)) as [->|Hne]; intros Hl.
  - destruct l as [|y l _] using rev_ind; [done|].
    eexists; apply py_getitem_last.
  - rewrite py_getitem_nonneg by lia.
    destruct (lookup_lt_is_Some_2 l (Z.to_nat a)) as [x ->]; [lia|]. by exists x.
Qed.
End slicing.

Lemma non_axis_dims_last (s : shape) : py_slice_to s (-1) = non_axis_dims (-1) s.
Proof. apply py_slice_to_last. Qed.

Lemma non_axis_dims_nonneg (s : shape) (a : Z) :
  0 ≤ a → py_slice_to s a ++ py_slice_from s (a + 1) = non_axis_dims a s.
Proof.
  intros Ha. unfold non_axis_dims.
  destruct (Z.eqb_spec a (-1)) as [|_]; [lia|].
  rewrite py_slice_to_nonneg, py_slice_from_nonneg by lia.
  by replace (Z.to_nat (a + 1)) with (S (Z.to_nat a)) by lia.
Qed.

Lemma py_all_fmap {A} (f : A → bool) (l : list A) : py_all (f <$> l) = forallb f l.
Proof. induction l as [|x l IH]; csimpl; [done|]. by rewrite <- IH. Qed.

(** ** Summing the dimensions at the axis *)

Lemma py_sum_from_known (ns : list Z) (acc : Z) :
  py_sum_from acc (Some <$> ns) = Ok (acc + sum_Z ns).
Proof.
  revert acc. induction ns as [|n ns IH]; intros acc; csimpl.
  - f_equal. lia.
  - rewrite IH. f_equal. lia.
Qed.

Lemma py_sum_known (ns : list Z) : py_sum (Some <$> ns) = Ok (sum_Z ns).
Proof. unfold py_sum. by rewrite py_sum_from_known. Qed.

Lemma none_in_false (col : list dim) :
  none_in col = false ↔ ∃ ns, col = Some <$> ns.
Proof.
  unfold none_in. split.
  - induction col as [|[n|] col IH]; simpl; intros Hc; [by exists []| |done].
    destruct (IH Hc) as [ns ->]. by exists (n :: ns).
  - intros [ns ->]. induction ns as [|n ns IH]; simpl; done.
Qed.

Lemma none_in_true (col : list dim) : none_in col = true ↔ None ∈ col.
Proof.
  unfold none_in. induction col as [|[n|] col IH]; simpl.
  - split; [done|]. by intros ?%elem_of_nil.
  - rewrite IH. split; [by constructor|]. by intros [?|?]%elem_of_cons.
  - split; [by constructor|done].
Qed.

(** ** ConcatenateLayer on a list of shapes *)

Section concatenate.
Context `{Collaborators}.
Import ConcatenateLayer.

Lemma infer_output_shape_not_list (self : t) (v : list pyelem) :
  py.islistoflists v = false → infer_output_shape self v = Raise ValueError.
Proof.
  intros Hv. unfold infer_output_shape. rewrite Hv.
  by destruct (axis self =? -1).
Qed.

(** The two comprehensions of the consistency check, run over shapes. *)
Lemma check_last_axis (v : list pyelem) (s0 : shape) (l : list shape) :
  py_getitem v 0 = Ok (Shp s0) →
  py_comprehension (fun ishp =>
      a ← elem_slice_to ishp (-1);
      first ← py_getitem v 0;
      b ← elem_slice_to first (-1);
      mret (utils.compare_shapes a b false)) (list_of_shapes l)
  = Ok ((fun s => utils.compare_shapes (non_axis_dims (-1) s)
                    (non_axis_dims (-1) s0) false) <$> l).
Proof.
  intros Hfirst. unfold list_of_shapes. rewrite py_comprehension_fmap.
  rewrite <- py_comprehension_pure. apply py_comprehension_ext.
  apply Forall_forall; intros s _. cbn [compose elem_slice_to].
  rewrite bind_Ok, Hfirst, bind_Ok. cbn [elem_slice_to].
  by rewrite bind_Ok, !non_axis_dims_last.
Qed.

Lemma check_inner_axis (a : Z) (v : list pyelem) (s0 : shape) (l : list shape) :
  0 ≤ a →
  py_getitem v 0 = Ok (Shp s0) →
  py_comprehension (fun ishp =>
      a1 ← elem_slice_to ishp a;
      a2 ← elem_slice_from ishp (a + 1);
      first ← py_getitem v 0;
      b1 ← elem_slice_to first a;
      first' ← py_getitem v 0;
      b2 ← elem_slice_from first' (a + 1);
      mret (utils.compare_shapes (a1 ++ a2) (b1 ++ b2) false)) (list_of_shapes l)
  = Ok ((fun s => utils.compare_shapes (non_axis_dims a s)
                    (non_axis_dims a s0) false) <$> l).
Proof.
  intros Ha Hfirst. unfold list_of_shapes. rewrite py_comprehension_fmap.
  rewrite <- py_comprehension_pure. apply py_comprehension_ext.
  apply Forall_forall; intros s _. cbn [compose elem_slice_to elem_slice_from].
  rewrite !bind_Ok, Hfirst, bind_Ok. cbn [elem_slice_to].
  rewrite !bind_Ok. cbn [elem_slice_from].
  by rewrite bind_Ok, !non_axis_dims_nonneg.
Qed.

Lemma infer_output_shape_shapes (self : t) (shapes : list shape) :
  axis self = -1 ∨ 0 ≤ axis self →
  infer_output_shape self (list_of_shapes shapes) =
    match shapes with
    | [] => Raise IndexError
    | s0 :: _ =>
        if forallb (fun s => utils.compare_shapes (non_axis_dims (axis self) s)
                               (non_axis_dims (axis self) s0) false) shapes
        then
          col ← py_comprehension (fun s => py_getitem s (axis self)) shapes;
          mid ← (if negb (none_in col) then s ← py_sum col; mret (Some s)
                 else mret None);
          mret ((py_slice_to s0 (axis self) ++ [mid]) ++
                (if axis self =? -1 then [] else py_slice_from s0 (axis self + 1)))
        else Raise ValueError
    end.
Proof.
  intros Ha. unfold infer_output_shape.
  destruct self as [a ish n]; cbn [axis] in *.
  rewrite islistoflists_shapes.
  destruct shapes as [|s0 rest].
  { simpl. by destruct (a =? -1). }
  set (shapes := s0 :: rest).
  assert (Hfirst : py_getitem (list_of_shapes shapes) 0 = Ok (Shp s0)) by done.
  assert (Hcol : py_comprehension (fun ishp => elem_getitem ishp a)
                   (list_of_shapes shapes)
                 = py_comprehension (fun s => py_getitem s a) shapes).
  { unfold list_of_shapes. by rewrite py_comprehension_fmap. }
  unfold py_and.
  destruct (Z.eqb_spec a (-1)) as [->|Hne].
  - rewrite (check_last_axis _ s0) by done.
    unfold mret, result_ret. rewrite !bind_Ok, py_all_fmap.
    destruct (forallb _ shapes); cbn [negb]; [|done].
    rewrite Hfirst, bind_Ok. cbn [elem_slice_to]. rewrite bind_Ok, Hcol.
    destruct (py_comprehension (fun s => py_getitem s (-1)) shapes) as [col|e];
      [|done].
    rewrite !bind_Ok. destruct (none_in col); cbn [negb]; rewrite ?bind_Ok; [done|].
    destruct (py_sum col) as [k|e]; [|done]. by rewrite !bind_Ok.
  - destruct Ha as [?|Ha]; [done|].
    rewrite (check_inner_axis _ _ s0) by done.
    unfold mret, result_ret. rewrite !bind_Ok, py_all_fmap.
    destruct (forallb _ shapes); cbn [negb]; [|done].
    rewrite Hfirst, bind_Ok. cbn [elem_slice_to]. rewrite bind_Ok, Hcol.
    destruct (py_comprehension (fun s => py_getitem s a) shapes) as [col|e];
      [|done].
    rewrite !bind_Ok. destruct (none_in col); cbn [negb]; rewrite ?bind_Ok; [done|].
    destruct (py_sum col) as [k|e]; [|done]. by rewrite !bind_Ok.
Qed.
End concatenate.

(** ** Consistency of the inputs of a concatenation *)

Lemma consistent_nil (a : Z) : consistent a [].
Proof. intros s0 s [=]. Qed.

Lemma consistent_check (a : Z) (s0 : shape) (rest : list shape) :
  forallb (fun s => utils.compare_shapes (non_axis_dims a s) (non_axis_dims a s0) false)
    (s0 :: rest) = true
  ↔ consistent a (s0 :: rest).
Proof.
  rewrite forallb_forall. unfold consistent. split.
  - intros Hall s0' s [= <-] Hs%list_elem_of_In.
    by apply (compare_shapes_spec _ _ false), Hall.
  - intros Hc s Hs%list_elem_of_In. by apply compare_shapes_spec, Hc.
Qed.

Lemma consistent_cons (a : Z) (s0 : shape) (rest : list shape) :
  consistent a (s0 :: rest) ↔
  Forall (fun s => shapes_compatible (non_axis_dims a s) (non_axis_dims a s0)) rest.
Proof.
  rewrite Forall_forall. unfold consistent. split.
  - intros Hc s Hs. apply Hc; [done|by constructor].
  - intros Hall s0' s [= <-] [->|Hs]%elem_of_cons; [apply shapes_compatible_refl|auto].
Qed.

Lemma list_of_shapes_inj (l k : list shape) :
  list_of_shapes l = list_of_shapes k → l = k.
Proof.
  revert k. induction l as [|s l IH]; intros [|t k]; try done.
  unfold list_of_shapes. csimpl. intros [= -> Hlk]. f_equal. by apply IH.
Qed.

(** ** Descriptors cut at the axis *)

Lemma drop_after_middle {A} (l1 l2 : list A) (x : A) :
  drop (S (length l1)) (l1 ++ x :: l2) = l2.
Proof.
  rewrite drop_app_ge by lia.
  by replace (S (length l1) - length l1)%nat with 1%nat by lia.
Qed.

Section split.
Implicit Types (x : split_shape) (a : Z).

Lemma split_non_axis_dims a x :
  a = -1 ∨ 0 ≤ a → split_at a x → non_axis_dims a (join x) = before x ++ after x.
Proof.
  unfold split_at, non_axis_dims, join.
  destruct (Z.eqb_spec a (-1)) as [->|Hne]; intros Ha Hx.
  - rewrite Hx, app_nil_r, length_app. simpl.
    replace (length (before x) + 1 - 1)%nat with (length (before x)) by lia.
    by rewrite take_app_length.
  - subst a. by rewrite Nat2Z.id, take_app_length, drop_after_middle.
Qed.

Lemma split_getitem a x : split_at a x → py_getitem (join x) a = Ok (at_axis x).
Proof.
  unfold split_at, join.
  destruct (Z.eqb_spec a (-1)) as [->|Hne]; intros Hx.
  - rewrite Hx. apply py_getitem_last.
  - by apply py_getitem_middle.
Qed.

Lemma split_slice_to a x :
  a = -1 ∨ 0 ≤ a → split_at a x → py_slice_to (join x) a = before x.
Proof.
  intros Ha Hx.
  destruct (Z.eq_dec a (-1)) as [->|Hne].
  - rewrite non_axis_dims_last, split_non_axis_dims by auto.
    unfold split_at in Hx. simpl in Hx. by rewrite Hx, app_nil_r.
  - unfold split_at in Hx. destruct (Z.eqb_spec a (-1)) as [|_]; [done|].
    rewrite py_slice_to_nonneg by lia. subst a.
    unfold join. by rewrite Nat2Z.id, take_app_length.
Qed.

Lemma split_slice_from a x :
  a ≠ -1 → split_at a x → py_slice_from (join x) (a + 1) = after x.
Proof.
  intros Hne Hx. unfold split_at in Hx.
  destruct (Z.eqb_spec a (-1)) as [|_]; [done|].
  rewrite py_slice_from_nonneg by lia. subst a. unfold join.
  replace (Z.to_nat (Z.of_nat (length (before x)) + 1))
    with (S (length (before x))) by lia.
  apply drop_after_middle.
Qed.

Lemma split_column a (xs : list split_shape) :
  Forall (split_at a) xs →
  py_comprehension (fun s => py_getitem s a) (join <$> xs) = Ok (at_axis <$> xs).
Proof.
  intros Hxs. rewrite py_comprehension_fmap, <- py_comprehension_pure.
  apply py_comprehension_ext. eapply Forall_impl; [exact Hxs|].
  intros x Hx. by apply split_getitem.
Qed.
End split.

Lemma supported_axes_range (a : Z) :
  a ∈ ConcatenateLayer.supported_axes → a = -1 ∨ 0 ≤ a.
Proof.
  unfold ConcatenateLayer.supported_axes. rewrite !elem_of_cons, elem_of_nil. lia.
Qed.

(** * The claims *)

(** ** ConcatenateLayer.infer_output_shape: the output shape *)

(** C1 (as amended).  For a ConcatenateLayer with axis [a] in
    [{0,1,2,3,4,-1}] and a non-empty list of mutually compatible shape
    descriptors each of which has a dimension at [a], [infer_output_shape]
    returns the first descriptor's prefix up to [a], followed by one entry,
    followed by the first descriptor's suffix after [a] (empty when
    [a = -1]); the entry is the sum of the inputs' dimensions at [a] when all
    of them are known, and [None] when one of them is unknown. *)
Theorem concatenate_output_shape (self : ConcatenateLayer.t)
    (x0 : split_shape) (xs : list split_shape) :
  ConcatenateLayer.axis self ∈ ConcatenateLayer.supported_axes →
  Forall (split_at (ConcatenateLayer.axis self)) (x0 :: xs) →
  Forall (fun x => shapes_compatible (before x ++ after x) (before x0 ++ after x0)) xs →
  ∃ mid : dim,
    ConcatenateLayer.infer_output_shape self (list_of_shapes (join <$> x0 :: xs))
      = Ok (before x0 ++ mid :: after x0)
    ∧ (∀ ns, at_axis <$> x0 :: xs = Some <$> ns → mid = Some (sum_Z ns))
    ∧ (None ∈ at_axis <$> x0 :: xs → mid = None)
    ∧ (ConcatenateLayer.axis self = -1 → after x0 = []).
Proof.
  intros Ha%supported_axes_range Hsplit Hcompat.
  set (a := ConcatenateLayer.axis self) in *.
  pose proof (Forall_inv Hsplit) as Hx0.
  assert (Hcheck : forallb (fun s => utils.compare_shapes (non_axis_dims a s)
                      (non_axis_dims a (join x0)) false) (join <$> x0 :: xs) = true).
  { change (join <$> x0 :: xs) with (join x0 :: (join <$> xs)).
    apply consistent_check, consistent_cons, Forall_fmap.
    apply Forall_inv_tail in Hsplit.
    rewrite Forall_forall in Hsplit, Hcompat. apply Forall_forall. intros x Hx.
    simpl. rewrite !split_non_axis_dims by auto. auto. }
  rewrite infer_output_shape_shapes by done. fold a.
  change (join <$> x0 :: xs) with (join x0 :: (join <$> xs)) at 1.
  cbv iota. rewrite Hcheck, split_column by done. rewrite bind_Ok.
  rewrite split_slice_to by done.
  assert (Hsuf : (if a =? -1 then [] else py_slice_from (join x0) (a + 1)) = after x0).
  { destruct (Z.eqb_spec a (-1)) as [Heq|Hne].
    - unfold split_at in Hx0. rewrite Heq in Hx0. done.
    - by apply split_slice_from. }
  rewrite Hsuf.
  destruct (none_in (at_axis <$> x0 :: xs)) eqn:Hnone; cbn [negb].
  - exists None. rewrite bind_Ok. split_and!.
    + unfold mret, result_ret. by rewrite <- app_assoc.
    + intros ns Hns. assert (none_in (at_axis <$> x0 :: xs) = false) as Hf
        by (apply none_in_false; eauto). congruence.
    + done.
    + intros Heq. unfold split_at in Hx0. by rewrite Heq in Hx0.
  - apply none_in_false in Hnone as Hns. destruct Hns as [ns Hns].
    exists (Some (sum_Z ns)). rewrite Hns, py_sum_known, !bind_Ok. split_and!.
    + unfold mret, result_ret. by rewrite <- app_assoc.
    + intros ns' Hns'. apply (inj (fmap Some)) in Hns'. by subst.
    + intros Hin%none_in_true. rewrite <- Hns in Hin. congruence.
    + intros Heq. unfold split_at in Hx0. by rewrite Heq in Hx0.
Qed.

Lemma concatenate_output_shape_witness :
  ConcatenateLayer.infer_output_shape
    {| ConcatenateLayer.axis := 1; ConcatenateLayer.input_shape := [];
       ConcatenateLayer.num_inputs := 2 |}
    [Shp [Some 2; Some 3; Some 4]; Shp [Some 2; Some 5; Some 4]]
  = Ok [Some 2; Some 8; Some 4].
Proof.
  destruct (concatenate_output_shape
    {| ConcatenateLayer.axis := 1; ConcatenateLayer.input_shape := [];
       ConcatenateLayer.num_inputs := 2 |}
    {| before := [Some 2]; at_axis := Some 3; after := [Some 4] |}
    [{| before := [Some 2]; at_axis := Some 5; after := [Some 4] |}])
    as (mid & Hout & Hknown & _).
  - right; left.
  - repeat constructor.
  - repeat constructor. intros [|[|j]] m n; simpl; congruence.
  - rewrite (Hknown [3; 5] eq_refl) in Hout. exact Hout.
Defined.

(** C1 (as stated) fails: with axis 2 and the two identical, hence
    compatible, descriptors [[2, 3]] and [[2, 3]] the consistency check
    passes and [infer_output_shape] raises [IndexError]; no descriptor is
    returned. *)
Lemma concatenate_output_shape_counterexample :
  let self := {| ConcatenateLayer.axis := 2; ConcatenateLayer.input_shape := [];
                 ConcatenateLayer.num_inputs := 2 |} in
  let shapes := [[Some 2; Some 3]; [Some 2; Some 3]] in
  ConcatenateLayer.axis self ∈ ConcatenateLayer.supported_axes
  ∧ consistent (ConcatenateLayer.axis self) shapes
  ∧ ConcatenateLayer.infer_output_shape self (list_of_shapes shapes) = Raise IndexError
  ∧ ¬ ∃ out, ConcatenateLayer.infer_output_shape self (list_of_shapes shapes) = Ok out.
Proof.
  simpl. split_and!.
  - do 2 right; left.
  - apply consistent_cons. repeat constructor; intros j m n Hm Hn; congruence.
  - reflexivity.
  - intros [out Hout]. vm_compute in Hout. discriminate.
Qed.

(** ** ConcatenateLayer.infer_output_shape: the errors *)

Lemma py_getitem_raise {A} (l : list A) (a : Z) (e : exn) :
  py_getitem l a = Raise e → e = IndexError.
Proof.
  unfold py_getitem. destruct (_ <? 0); [congruence|].
  destruct (l !! _); congruence.
Qed.

Lemma py_comprehension_raise {A B} (P : exn → Prop) (f : A → result B) (l : list A) e :
  (∀ x e', f x = Raise e' → P e') → py_comprehension f l = Raise e → P e.
Proof.
  intros Hf. induction l as [|x l IH]; simpl; [done|].
  destruct (f x) as [y|e'] eqn:Hx; simpl.
  - destruct (py_comprehension f l) as [ys|e']; simpl; [done|].
    intros [= <-]. by apply IH.
  - intros [= <-]. by eapply Hf.
Qed.

Lemma py_comprehension_ok {A B} (f : A → result B) (l : list A) :
  Forall (fun x => ∃ y, f x = Ok y) l → ∃ ys, py_comprehension f l = Ok ys.
Proof.
  induction 1 as [|x l [y Hy] _ [ys IH]]; simpl; [by eexists|].
  rewrite Hy, IH. simpl. by eexists.
Qed.

(** Once the consistency check has passed, no [ValueError] is raised. *)
Lemma output_not_ValueError (a : Z) (s0 : shape) (shapes : list shape) (suf : shape) :
  (col ← py_comprehension (fun s => py_getitem s a) shapes;
   mid ← (if negb (none_in col) then s ← py_sum col; mret (Some s) else mret None);
   mret ((py_slice_to s0 a ++ [mid]) ++ suf)) ≠ Raise ValueError.
Proof.
  destruct (py_comprehension (fun s => py_getitem s a) shapes) as [col|e] eqn:Hcol.
  - rewrite bind_Ok. destruct (none_in col) eqn:Hnone; cbn [negb]; [done|].
    apply none_in_false in Hnone as [ns ->]. by rewrite py_sum_known.
  - rewrite bind_Raise. intros [= ->].
    by apply (py_comprehension_raise (fun e => e = IndexError)) in Hcol;
      [|intros ??; apply py_getitem_raise].
Qed.

(** When every descriptor has a dimension at the axis, the output is
    computed. *)
Lemma output_ok (a : Z) (s0 : shape) (shapes : list shape) (suf : shape) :
  Forall (has_axis a) shapes →
  ∃ out,
    (col ← py_comprehension (fun s => py_getitem s a) shapes;
     mid ← (if negb (none_in col) then s ← py_sum col; mret (Some s) else mret None);
     mret ((py_slice_to s0 a ++ [mid]) ++ suf)) = Ok out.
Proof.
  intros Hax.
  destruct (py_comprehension_ok (fun s => py_getitem s a) shapes) as [col ->].
  { eapply Forall_impl; [exact Hax|]. intros s Hs. by apply py_getitem_ok. }
  rewrite bind_Ok. destruct (none_in col) eqn:Hnone; cbn [negb]; [by eexists|].
  apply none_in_false in Hnone as [ns ->]. rewrite py_sum_known. by eexists.
Qed.

(** C2 (as amended).  For a ConcatenateLayer with a supported axis,
    [infer_output_shape] fails with the shape error (a [ValueError]) exactly
    when its argument is not a list of shape descriptors or some descriptor's
    dimensions at the positions other than the axis are not compatible with
    the first descriptor's: they differ in number, or hold two differing
    known values at one position.  When the check passes, the list is not
    empty and every descriptor has a dimension at the axis, it succeeds. *)
Theorem concatenate_shape_error (self : ConcatenateLayer.t) (v : list pyelem) :
  ConcatenateLayer.axis self ∈ ConcatenateLayer.supported_axes →
  (ConcatenateLayer.infer_output_shape self v = Raise ValueError
   ↔ ¬ ∃ shapes, v = list_of_shapes shapes
                 ∧ consistent (ConcatenateLayer.axis self) shapes)
  ∧ ((¬ ∃ shapes, v = list_of_shapes shapes) →
     ConcatenateLayer.infer_output_shape self v = Raise ValueError)
  ∧ (∀ shapes s0 s j m n,
       v = list_of_shapes shapes → head shapes = Some s0 → s ∈ shapes →
       non_axis_dims (ConcatenateLayer.axis self) s !! j = Some (Some m) →
       non_axis_dims (ConcatenateLayer.axis self) s0 !! j = Some (Some n) →
       m ≠ n →
       ConcatenateLayer.infer_output_shape self v = Raise ValueError)
  ∧ (∀ shapes,
       v = list_of_shapes shapes →
       consistent (ConcatenateLayer.axis self) shapes →
       shapes ≠ [] →
       Forall (has_axis (ConcatenateLayer.axis self)) shapes →
       ∃ out, ConcatenateLayer.infer_output_shape self v = Ok out).
Proof.
  intros Ha%supported_axes_range.
  set (a := ConcatenateLayer.axis self) in *.
  assert (Hiff : ConcatenateLayer.infer_output_shape self v = Raise ValueError
                 ↔ ¬ ∃ shapes, v = list_of_shapes shapes ∧ consistent a shapes).
  { destruct (py.islistoflists v) eqn:Hv.
    - apply islistoflists_spec in Hv as [shapes ->].
      rewrite infer_output_shape_shapes by done. fold a.
      destruct shapes as [|s0 rest].
      + split; [done|]. intros []. exists []. split; [done|apply consistent_nil].
      + cbv beta iota.
        match goal with
        | |- context [forallb ?f ?l] => destruct (forallb f l) eqn:Hcheck
        end.
        * split; [intros Hout; exfalso; eapply output_not_ValueError, Hout|].
          intros []. exists (s0 :: rest). split; [done|]. by apply consistent_check.
        * split; [|done]. intros _ (shapes & <-%list_of_shapes_inj & Hc).
          apply consistent_check in Hc. congruence.
    - rewrite infer_output_shape_not_list by done. split; [|done].
      intros _ (shapes & -> & _). by rewrite islistoflists_shapes in Hv. }
  split_and!.
  - exact Hiff.
  - intros Hnot. apply Hiff. intros (shapes & Hv & _). apply Hnot. eauto.
  - intros shapes s0 s j m n -> Hhd Hs Hm Hn Hmn. apply Hiff.
    intros (shapes' & <-%list_of_shapes_inj & Hc).
    destruct (Hc s0 s Hhd Hs) as [_ Hpos]. by apply Hmn, (Hpos j).
  - intros shapes -> Hc Hne Hax.
    rewrite infer_output_shape_shapes by done. fold a.
    destruct shapes as [|s0 rest]; [done|]. cbv beta iota.
    apply consistent_check in Hc. rewrite Hc. by apply output_ok.
Qed.

Lemma concatenate_shape_error_witness :
  ConcatenateLayer.infer_output_shape
    {| ConcatenateLayer.axis := 1; ConcatenateLayer.input_shape := [];
       ConcatenateLayer.num_inputs := 2 |}
    (list_of_shapes [[Some 2; Some 3]; [Some 3; Some 3]])
  = Raise ValueError
  ∧ ∃ out,
      ConcatenateLayer.infer_output_shape
        {| ConcatenateLayer.axis := 1; ConcatenateLayer.input_shape := [];
           ConcatenateLayer.num_inputs := 2 |}
        (list_of_shapes [[Some 2; Some 3; Some 4]; [Some 2; Some 5; Some 4]])
      = Ok out.
Proof.
  assert (Hax : 1 ∈ ConcatenateLayer.supported_axes) by (right; left).
  split.
  - refine (proj1 (proj2 (proj2 (concatenate_shape_error
      {| ConcatenateLayer.axis := 1; ConcatenateLayer.input_shape := [];
         ConcatenateLayer.num_inputs := 2 |}
      (list_of_shapes [[Some 2; Some 3]; [Some 3; Some 3]]) Hax)))
      [[Some 2; Some 3]; [Some 3; Some 3]] [Some 2; Some 3] [Some 3; Some 3]
      0%nat 3 2 eq_refl eq_refl _ eq_refl eq_refl _).
    + right; left.
    + lia.
  - refine (proj2 (proj2 (proj2 (concatenate_shape_error
      {| ConcatenateLayer.axis := 1; ConcatenateLayer.input_shape := [];
         ConcatenateLayer.num_inputs := 2 |}
      (list_of_shapes [[Some 2; Some 3; Some 4]; [Some 2; Some 5; Some 4]]) Hax)))
      [[Some 2; Some 3; Some 4]; [Some 2; Some 5; Some 4]] eq_refl _ _ _).
    + apply consistent_cons. repeat constructor.
      intros [|[|j]] m n; simpl; congruence.
    + done.
    + repeat constructor; simpl; lia.
Defined.

(** C2 (as stated) fails.  With axis 1 and the inputs [[2, 3]] and
    [[2, 3, 4]] the argument is a list of shape descriptors and no position
    holds two differing known values, yet [infer_output_shape] fails with the
    shape error, because the descriptors differ in length outside the axis.
    With axis 2 and the inputs [[2, 3]] and [[2, 3]] neither failure
    condition holds, yet the call does not succeed. *)
Lemma concatenate_shape_error_counterexample :
  let no_differing_known (shapes : list shape) :=
    ∀ s0 s j m n, head shapes = Some s0 → s ∈ shapes →
      s !! j = Some (Some m) → s0 !! j = Some (Some n) → m = n in
  (no_differing_known [[Some 2; Some 3]; [Some 2; Some 3; Some 4]]
   ∧ ConcatenateLayer.infer_output_shape
       {| ConcatenateLayer.axis := 1; ConcatenateLayer.input_shape := [];
          ConcatenateLayer.num_inputs := 2 |}
       (list_of_shapes [[Some 2; Some 3]; [Some 2; Some 3; Some 4]])
     = Raise ValueError)
  ∧ (no_differing_known [[Some 2; Some 3]; [Some 2; Some 3]]
     ∧ ConcatenateLayer.infer_output_shape
         {| ConcatenateLayer.axis := 2; ConcatenateLayer.input_shape := [];
            ConcatenateLayer.num_inputs := 2 |}
         (list_of_shapes [[Some 2; Some 3]; [Some 2; Some 3]])
       = Raise IndexError).
Proof.
  cbv zeta. split_and!; try reflexivity.
  - intros s0 s j m n [= <-] Hs.
    apply elem_of_cons in Hs as [->|Hs];
      [|apply list_elem_of_singleton in Hs as ->];
      destruct j as [|[|[|j]]]; simpl; congruence.
  - intros s0 s j m n [= <-] Hs.
    apply elem_of_cons in Hs as [->|Hs];
      [|apply list_elem_of_singleton in Hs as ->];
      destruct j as [|[|[|j]]]; simpl; congruence.
Qed.

(** ** AddLayer *)

Section add_layer.
Context `{Collaborators}.

(** A constructed AddLayer has more than one input. *)
Lemma add_init_num_inputs num_inputs dimensions input_shape kwargs self :
  AddLayer.init num_inputs dimensions input_shape kwargs = Ok self →
  1 < AddLayer.num_inputs self.
Proof.
  unfold AddLayer.init.
  destruct (Layer_init kwargs) as [[]|e]; [|done].
  destruct (get_input_shape dimensions num_inputs input_shape) as [[shp k]|e];
    [|done].
  rewrite !bind_Ok. cbn [fst snd].
  destruct (Z.ltb_spec 1 k) as [Hk|Hk]; cbn [negb]; [|done].
  by intros [= <-].
Qed.

Lemma add_compare_column (v : list pyelem) (s0 : shape) (l : list shape) :
  py_getitem v 0 = Ok (Shp s0) →
  py_comprehension (fun _input_shape =>
      first ← py_getitem v 0;
      utils.compare_elems _input_shape first true) (list_of_shapes l)
  = Ok ((fun s => utils.compare_shapes s s0 true) <$> l).
Proof.
  intros Hfirst. unfold list_of_shapes. rewrite py_comprehension_fmap.
  rewrite <- py_comprehension_pure. apply py_comprehension_ext.
  apply Forall_forall; intros s _. cbn [compose].
  by rewrite Hfirst, bind_Ok.
Qed.

Lemma add_inputs_ok_check (n : Z) (s0 : shape) (rest : list shape) :
  add_inputs_ok n (list_of_shapes (s0 :: rest))
  ↔ Z.of_nat (length (s0 :: rest)) = n
    ∧ forallb (fun s => utils.compare_shapes s s0 true) (s0 :: rest) = true.
Proof.
  unfold add_inputs_ok. rewrite forallb_forall. split.
  - intros (shapes & <-%list_of_shapes_inj & Hlen & Hall). split; [done|].
    intros s Hs%list_elem_of_In. by apply compare_shapes_spec, Hall.
  - intros [Hlen Hall]. exists (s0 :: rest). split_and!; [done..|].
    intros s0' s [= <-] Hs%list_elem_of_In.
    by apply (compare_shapes_spec _ _ true), Hall.
Qed.

Lemma add_infer_invariant (self : AddLayer.t) (v : list pyelem) :
  1 < AddLayer.num_inputs self →
  (add_inputs_ok (AddLayer.num_inputs self) v →
   ∃ s0, head v = Some (Shp s0) ∧ AddLayer.infer_output_shape self v = Ok (Shp s0))
  ∧ (¬ add_inputs_ok (AddLayer.num_inputs self) v →
     AddLayer.infer_output_shape self v = Raise AssertionError).
Proof.
  intros Hn. unfold AddLayer.infer_output_shape.
  destruct (py.islistoflists v) eqn:Hv; cbn [py_assert].
  2:{ rewrite bind_Raise. split; [|done].
      intros (shapes & -> & _). by rewrite islistoflists_shapes in Hv. }
  apply islistoflists_spec in Hv as [shapes ->]. rewrite bind_Ok.
  destruct (Z.eqb_spec (Z.of_nat (length (list_of_shapes shapes)))
              (AddLayer.num_inputs self)) as [Hlen|Hlen]; cbn [py_assert].
  2:{ rewrite bind_Raise. split; [|done].
      intros (shapes' & <-%list_of_shapes_inj & Hlen' & _).
      unfold list_of_shapes in Hlen. rewrite length_fmap in Hlen. done. }
  rewrite bind_Ok.
  unfold list_of_shapes in Hlen. rewrite length_fmap in Hlen.
  destruct shapes as [|s0 rest]; [simpl in Hlen; lia|].
  rewrite (add_compare_column _ s0) by done.
  rewrite bind_Ok, py_all_fmap.
  pose proof (add_inputs_ok_check (AddLayer.num_inputs self) s0 rest) as Hok.
  destruct (forallb _ (s0 :: rest)) eqn:Hall; cbn [py_assert].
  - rewrite bind_Ok. split; [|intros []; apply Hok; done].
    intros _. by exists s0.
  - rewrite bind_Raise. split; [|done].
    intros [_ ?]%Hok. done.
Qed.
End add_layer.

(** C3.  For every constructed AddLayer, [infer_output_shape] fails with the
    shape error (the [AssertionError] of its assertions) unless its argument
    is a list of shape descriptors whose length is the layer's [num_inputs]
    and each of which is compatible with the first, an unknown dimension
    matching anything; when these conditions hold it returns the first
    input's shape descriptor unchanged. *)
Theorem add_infer_output_shape `{Collaborators}
    (num_inputs : option Z) (dimensions : option dimensions_arg)
    (input_shape : option (list pyelem)) (kwargs : layer_kwargs)
    (self : AddLayer.t) (v : list pyelem) :
  AddLayer.init num_inputs dimensions input_shape kwargs = Ok self →
  (add_inputs_ok (AddLayer.num_inputs self) v →
   ∃ s0, head v = Some (Shp s0) ∧ AddLayer.infer_output_shape self v = Ok (Shp s0))
  ∧ (¬ add_inputs_ok (AddLayer.num_inputs self) v →
     AddLayer.infer_output_shape self v = Raise AssertionError).
Proof.
  intros Hinit. apply add_infer_invariant.
  by eapply add_init_num_inputs.
Qed.

Lemma add_infer_output_shape_witness :
  AddLayer.infer_output_shape
    {| AddLayer.input_shape :=
         list_of_shapes [[Some 4; Some 4]; [None; Some 4]; [Some 4; Some 4]];
       AddLayer.num_inputs := 3 |}
    (list_of_shapes [[Some 4; Some 4]; [None; Some 4]; [Some 4; Some 4]])
  = Ok (Shp [Some 4; Some 4])
  ∧ AddLayer.infer_output_shape
      {| AddLayer.input_shape :=
           list_of_shapes [[Some 4; Some 4]; [None; Some 4]; [Some 4; Some 4]];
         AddLayer.num_inputs := 3 |}
      (list_of_shapes [[Some 4; Some 4]; [None; Some 4]; [Some 5; Some 4]])
    = Raise AssertionError.
Proof.
  split.
  - destruct (proj1 (@add_infer_output_shape example_collaborators
      None None
      (Some (list_of_shapes [[Some 4; Some 4]; [None; Some 4]; [Some 4; Some 4]])) tt
      _ (list_of_shapes [[Some 4; Some 4]; [None; Some 4]; [Some 4; Some 4]])
      eq_refl)) as (s0 & Hhd & Hout).
    + apply add_inputs_ok_check. by split.
    + injection Hhd as <-. exact Hout.
  - apply (proj2 (@add_infer_output_shape example_collaborators
      None None
      (Some (list_of_shapes [[Some 4; Some 4]; [None; Some 4]; [Some 4; Some 4]])) tt
      _ (list_of_shapes [[Some 4; Some 4]; [None; Some 4]; [Some 5; Some 4]])
      eq_refl)).
    intros [_ Hall]%add_inputs_ok_check. discriminate Hall.
Defined.

(** ** FunctionLayer.infer_output_shape *)

(** C4.  A FunctionLayer constructed without a [shape_inference_function]
    returns its input shape unchanged from [infer_output_shape], for every
    input and without raising; constructed with a callable
    [shape_inference_function], it returns exactly that function applied to
    the input shape. *)
Theorem function_infer_output_shape `{Collaborators}
    (function : pyarg (value → result value))
    (shape_inference_function : pyarg (list pyelem → result (list pyelem)))
    (parameters : option (list parameter)) (num_inputs : option Z)
    (dimensions : option dimensions_arg) (input_shape : option (list pyelem))
    (kwargs : layer_kwargs) (self : FunctionLayer.t) (s : list pyelem) :
  FunctionLayer.init function shape_inference_function parameters num_inputs
    dimensions input_shape kwargs = Ok self →
  (shape_inference_function = PyNone →
   FunctionLayer.infer_output_shape self s = Ok s)
  ∧ (∀ g, shape_inference_function = PyCallable g →
     FunctionLayer.infer_output_shape self s = g s).
Proof.
  unfold FunctionLayer.init, FunctionLayer.infer_output_shape.
  destruct (Layer_init kwargs) as [[]|e]; [rewrite bind_Ok|done].
  destruct function as [|f|]; [done| |done].
  destruct (is_not_None shape_inference_function
            && negb (callable shape_inference_function)); [done|].
  destruct (get_input_shape dimensions num_inputs input_shape) as [r|e];
    [rewrite bind_Ok|done].
  destruct (FunctionLayer.register_all parameters) as [[]|e];
    [rewrite bind_Ok|done].
  intros [= <-]. cbn [FunctionLayer.shape_inference_function].
  split; [by intros ->|by intros g ->].
Qed.

Lemma function_infer_output_shape_witness :
  FunctionLayer.infer_output_shape
    (@FunctionLayer.Build_t example_collaborators
       (fun x : Z => Ok (x + 1)) (fun _input_shape => Ok _input_shape)
       [Dim (Some 2); Dim None] 1)
    [Dim (Some 7); Dim None]
  = Ok [Dim (Some 7); Dim None]
  ∧ FunctionLayer.infer_output_shape
      (@FunctionLayer.Build_t example_collaborators
         (fun x : Z => Ok (x + 1)) (fun s => Ok (Dim (Some 1) :: s))
         [Dim (Some 2); Dim None] 1)
      [Dim (Some 7)]
    = Ok [Dim (Some 1); Dim (Some 7)].
Proof.
  split.
  - exact (proj1 (@function_infer_output_shape example_collaborators
      (PyCallable (fun x : Z => Ok (x + 1))) PyNone (Some []) None None
      (Some [Dim (Some 2); Dim None]) tt _ [Dim (Some 7); Dim None] eq_refl)
      eq_refl).
  - exact (proj2 (@function_infer_output_shape example_collaborators
      (PyCallable (fun x : Z => Ok (x + 1)))
      (PyCallable (fun s => Ok (Dim (Some 1) :: s))) (Some []) None None
      (Some [Dim (Some 2); Dim None]) tt _ [Dim (Some 7)] eq_refl)
      _ eq_refl).
Defined.

(** ** ReplicateLayer *)

(** C5 (as amended).  For every ReplicateLayer, every shape descriptor [s]
    and every input [x], [infer_output_shape s] is a list of length
    [max(num_replicate, 0)] whose every element is [s], and [feedforward x]
    is a list of [max(num_replicate, 0)] references to the same object [x]:
    every element is the reference [x] itself, so that an update of the
    object through one element is seen through every other.  The length is
    [num_replicate] whenever [num_replicate >= 0]. *)
Theorem replicate_outputs {A V : Type} (self : ReplicateLayer.t)
    (s : A) (x : loc) (store : gmap loc V) :
  (Z.of_nat (length (ReplicateLayer.infer_output_shape self s))
     = Z.max 0 (ReplicateLayer.num_replicate self)
   ∧ Forall (fun y => y = s) (ReplicateLayer.infer_output_shape self s))
  ∧ (Z.of_nat (length (ReplicateLayer.feedforward self x))
       = Z.max 0 (ReplicateLayer.num_replicate self)
     ∧ (∀ i r, ReplicateLayer.feedforward self x !! i = Some r → r = x)
     ∧ (∀ i j ri rj v,
          ReplicateLayer.feedforward self x !! i = Some ri →
          ReplicateLayer.feedforward self x !! j = Some rj →
          <[ri := v]> store !! rj = Some v))
  ∧ (0 ≤ ReplicateLayer.num_replicate self →
     Z.of_nat (length (ReplicateLayer.infer_output_shape self s))
       = ReplicateLayer.num_replicate self
     ∧ Z.of_nat (length (ReplicateLayer.feedforward self x))
       = ReplicateLayer.num_replicate self).
Proof.
  unfold ReplicateLayer.infer_output_shape, ReplicateLayer.feedforward, py_list_repeat.
  rewrite !length_replicate. split_and!.
  - lia.
  - apply Forall_replicate. done.
  - lia.
  - by intros i r [-> _]%lookup_replicate.
  - intros i j ri rj v [-> _]%lookup_replicate [-> _]%lookup_replicate.
    apply lookup_insert_eq.
  - lia.
Qed.

Lemma replicate_outputs_witness :
  (Z.of_nat (length (ReplicateLayer.infer_output_shape
       {| ReplicateLayer.num_replicate := 3;
          ReplicateLayer.input_shape := [Dim (Some 2); Dim None] |}
       [Dim (Some 2); Dim None])) = 3
   ∧ Z.of_nat (length (ReplicateLayer.feedforward
       {| ReplicateLayer.num_replicate := 3;
          ReplicateLayer.input_shape := [Dim (Some 2); Dim None] |}
       5%positive)) = 3)
  ∧ Forall (fun y => y = [Dim (Some 2); Dim None])
      (ReplicateLayer.infer_output_shape
         {| ReplicateLayer.num_replicate := 3;
            ReplicateLayer.input_shape := [Dim (Some 2); Dim None] |}
         [Dim (Some 2); Dim None])
  ∧ ∀ i r,
      ReplicateLayer.feedforward
        {| ReplicateLayer.num_replicate := 3;
           ReplicateLayer.input_shape := [Dim (Some 2); Dim None] |}
        5%positive !! i = Some r →
      r = 5%positive.
Proof.
  destruct (@replicate_outputs (list pyelem) Z
    {| ReplicateLayer.num_replicate := 3;
       ReplicateLayer.input_shape := [Dim (Some 2); Dim None] |}
    [Dim (Some 2); Dim None] 5%positive ∅)
    as ((_ & Hshape) & (_ & Hrefs & _) & Hlen).
  cbn [ReplicateLayer.num_replicate] in Hlen.
  split; [exact (Hlen ltac:(lia))|split; [exact Hshape|exact Hrefs]].
Defined.

(** C5 (as stated) fails: the ReplicateLayer constructed with
    [num_replicate = -2] returns the empty list from both methods, whose
    length 0 is not [num_replicate]. *)
Lemma replicate_outputs_counterexample :
  let self := {| ReplicateLayer.num_replicate := -2;
                 ReplicateLayer.input_shape := [Dim (Some 4); Dim None] |} in
  @ReplicateLayer.init example_collaborators (-2) None
    (Some [Dim (Some 4); Dim None]) tt = Ok self
  ∧ ReplicateLayer.infer_output_shape self [Dim (Some 4); Dim None] = []
  ∧ Z.of_nat (length (ReplicateLayer.infer_output_shape self [Dim (Some 4); Dim None]))
    ≠ ReplicateLayer.num_replicate self
  ∧ ReplicateLayer.feedforward self 5%positive = []
  ∧ Z.of_nat (length (ReplicateLayer.feedforward self 5%positive))
    ≠ ReplicateLayer.num_replicate self.
Proof. cbv zeta. split_and!; (reflexivity || (simpl; lia)). Qed.

(** ** IdentityLayer *)

(** C6.  For every shape descriptor [s] and every input [x], an
    IdentityLayer returns [s] from [infer_output_shape] and [x] from
    [feedforward]. *)
Theorem identity_laws {A B : Type} (self : IdentityLayer.t) (s : A) (x : B) :
  IdentityLayer.infer_output_shape self s = s
  ∧ IdentityLayer.feedforward self x = x.
Proof. split; reflexivity. Qed.

(** ** Construction *)

(** C7.  Once the base class is initialised and the input shape resolved,
    the construction of an AddLayer fails with the configuration error (a
    [ValueError]) whenever the resolved [num_inputs] is at most 1, and
    succeeds whenever it exceeds 1. *)
Theorem add_init_num_inputs_check `{Collaborators}
    (num_inputs : option Z) (dimensions : option dimensions_arg)
    (input_shape : option (list pyelem)) (kwargs : layer_kwargs)
    (resolved_shape : list pyelem) (resolved_num_inputs : Z) :
  Layer_init kwargs = Ok tt →
  get_input_shape dimensions num_inputs input_shape
    = Ok (resolved_shape, resolved_num_inputs) →
  (resolved_num_inputs ≤ 1 →
   AddLayer.init num_inputs dimensions input_shape kwargs = Raise ValueError)
  ∧ (1 < resolved_num_inputs →
     AddLayer.init num_inputs dimensions input_shape kwargs
     = Ok {| AddLayer.input_shape := resolved_shape;
             AddLayer.num_inputs := resolved_num_inputs |}).
Proof.
  intros Hbase Hshape. unfold AddLayer.init.
  rewrite Hbase, Hshape, !bind_Ok. cbn [fst snd].
  destruct (Z.ltb_spec 1 resolved_num_inputs); cbn [negb]; split; (done || lia).
Qed.

Lemma add_init_num_inputs_check_witness :
  @AddLayer.init example_collaborators None None (Some [Dim (Some 4); Dim None]) tt
  = Raise ValueError
  ∧ @AddLayer.init example_collaborators None None
      (Some (list_of_shapes [[Some 4]; [Some 4]])) tt
    = Ok {| AddLayer.input_shape := list_of_shapes [[Some 4]; [Some 4]];
            AddLayer.num_inputs := 2 |}.
Proof.
  split.
  - apply (proj1 (@add_init_num_inputs_check example_collaborators
      None None (Some [Dim (Some 4); Dim None]) tt [Dim (Some 4); Dim None] 1
      eq_refl eq_refl)).
    lia.
  - apply (proj2 (@add_init_num_inputs_check example_collaborators
      None None (Some (list_of_shapes [[Some 4]; [Some 4]])) tt
      (list_of_shapes [[Some 4]; [Some 4]]) 2 eq_refl eq_refl)).
    lia.
Defined.

(** C8 (as amended).  The construction of a ReplicateLayer performs no
    validation of [num_replicate]: once the base class is initialised and
    the input shape resolved, it succeeds for every integer [num_replicate],
    positive or not, and stores it unchanged. *)
Theorem replicate_init_no_validation `{Collaborators}
    (num_replicate : Z) (dimensions : option dimensions_arg)
    (input_shape : option (list pyelem)) (kwargs : layer_kwargs)
    (resolved_shape : list pyelem) (resolved_num_inputs : Z) :
  Layer_init kwargs = Ok tt →
  get_input_shape dimensions (Some 1) input_shape
    = Ok (resolved_shape, resolved_num_inputs) →
  ReplicateLayer.init num_replicate dimensions input_shape kwargs
  = Ok {| ReplicateLayer.num_replicate := num_replicate;
          ReplicateLayer.input_shape := resolved_shape |}.
Proof.
  intros Hbase Hshape. unfold ReplicateLayer.init.
  by rewrite Hbase, Hshape.
Qed.

Lemma replicate_init_no_validation_witness :
  @ReplicateLayer.init example_collaborators 3 None (Some [Dim (Some 4); Dim None]) tt
  = Ok {| ReplicateLayer.num_replicate := 3;
          ReplicateLayer.input_shape := [Dim (Some 4); Dim None] |}.
Proof.
  exact (@replicate_init_no_validation example_collaborators 3 None
    (Some [Dim (Some 4); Dim None]) tt [Dim (Some 4); Dim None] 1 eq_refl eq_refl).
Defined.

(** C8 (as stated) fails: the construction with [num_replicate = 0], and
    with [num_replicate = -1], is not rejected. *)
Lemma replicate_init_counterexample :
  @ReplicateLayer.init example_collaborators 0 None (Some [Dim (Some 4); Dim None]) tt
  = Ok {| ReplicateLayer.num_replicate := 0;
          ReplicateLayer.input_shape := [Dim (Some 4); Dim None] |}
  ∧ @ReplicateLayer.init example_collaborators (-1) None
      (Some [Dim (Some 4); Dim None]) tt
    = Ok {| ReplicateLayer.num_replicate := -1;
            ReplicateLayer.input_shape := [Dim (Some 4); Dim None] |}.
Proof. split; reflexivity. Qed.

(** C9.  Invalid construction-time arguments raise the configuration error
    at construction, once the base class is initialised: a ConcatenateLayer
    with an axis outside [{0,1,2,3,4,-1}] fails (the [AssertionError] of its
    assertion), and a FunctionLayer with a non-callable [function], or with a
    [shape_inference_function] that is neither [None] nor callable, fails
    (a [ValueError]). *)
Theorem construction_errors `{Collaborators} (kwargs : layer_kwargs)
    (num_inputs : option Z) (dimensions : option dimensions_arg)
    (input_shape : option (list pyelem)) :
  Layer_init kwargs = Ok tt →
  (∀ axis, axis ∉ ConcatenateLayer.supported_axes →
     ConcatenateLayer.init num_inputs axis dimensions input_shape kwargs
     = Raise AssertionError)
  ∧ (∀ function shape_inference_function parameters,
       callable function = false →
       FunctionLayer.init function shape_inference_function parameters
         num_inputs dimensions input_shape kwargs = Raise ValueError)
  ∧ (∀ function shape_inference_function parameters,
       shape_inference_function ≠ PyNone →
       callable shape_inference_function = false →
       FunctionLayer.init function shape_inference_function parameters
         num_inputs dimensions input_shape kwargs = Raise ValueError).
Proof.
  intros Hbase. split_and!.
  - intros axis Haxis. unfold ConcatenateLayer.init.
    rewrite Hbase, bind_Ok, bool_decide_eq_false_2 by done. done.
  - intros f sif ps Hf. unfold FunctionLayer.init. rewrite Hbase, bind_Ok.
    by destruct f.
  - intros f sif ps Hnone Hsif. unfold FunctionLayer.init. rewrite Hbase, bind_Ok.
    destruct f; [done| |done]. rewrite Hsif. by destruct sif.
Qed.

Lemma construction_errors_witness :
  @ConcatenateLayer.init example_collaborators None 5 None
    (Some (list_of_shapes [[Some 4]; [Some 4]])) tt
  = Raise AssertionError
  ∧ @FunctionLayer.init example_collaborators PyObject PyNone (Some []) None None
      (Some (list_of_shapes [[Some 4]; [Some 4]])) tt
    = Raise ValueError
  ∧ @FunctionLayer.init example_collaborators (PyCallable (fun x : Z => Ok x))
      PyObject (Some []) None None
      (Some (list_of_shapes [[Some 4]; [Some 4]])) tt
    = Raise ValueError.
Proof.
  destruct (@construction_errors example_collaborators tt None None
    (Some (list_of_shapes [[Some 4]; [Some 4]])) eq_refl) as (Haxis & Hf & Hsif).
  split_and!.
  - apply Haxis. unfold ConcatenateLayer.supported_axes.
    rewrite !elem_of_cons, elem_of_nil. lia.
  - by apply Hf.
  - by apply Hsif.
Defined.

(** C10.  A FunctionLayer construction that omits [parameters], which then
    is [None], never completes: the constructor iterates over [parameters]
    unconditionally, so that even with a callable [function] and valid shape
    arguments it raises (a [TypeError]). *)
Theorem function_init_without_parameters `{Collaborators}
    (function : pyarg (value → result value))
    (shape_inference_function : pyarg (list pyelem → result (list pyelem)))
    (num_inputs : option Z) (dimensions : option dimensions_arg)
    (input_shape : option (list pyelem)) (kwargs : layer_kwargs) :
  (∃ e, FunctionLayer.init function shape_inference_function None num_inputs
          dimensions input_shape kwargs = Raise e)
  ∧ (∀ r,
       Layer_init kwargs = Ok tt →
       callable function = true →
       shape_inference_function = PyNone ∨ callable shape_inference_function = true →
       get_input_shape dimensions num_inputs input_shape = Ok r →
       FunctionLayer.init function shape_inference_function None num_inputs
         dimensions input_shape kwargs = Raise TypeError).
Proof.
  unfold FunctionLayer.init. split.
  - destruct (Layer_init kwargs) as [[]|e]; [rewrite bind_Ok|by eexists].
    destruct function as [|f|]; [by eexists| |by eexists].
    destruct (_ && _); [by eexists|].
    destruct (get_input_shape dimensions num_inputs input_shape) as [r|e];
      by eexists.
  - intros r Hbase Hf Hsif Hshape. rewrite Hbase, bind_Ok.
    destruct function as [|f|]; [done| |done].
    rewrite Hshape.
    by destruct Hsif as [->|Hsif]; [|destruct shape_inference_function].
Qed.

Lemma function_init_without_parameters_witness :
  @FunctionLayer.init example_collaborators (PyCallable (fun x : Z => Ok x))
    PyNone None None None (Some [Dim (Some 4); Dim None]) tt
  = Raise TypeError.
Proof.
  apply (proj2 (@function_init_without_parameters example_collaborators
    (PyCallable (fun x : Z => Ok x)) PyNone None None
    (Some [Dim (Some 4); Dim None]) tt) ([Dim (Some 4); Dim None], 1));
    (reflexivity || (left; reflexivity)).
Defined.

(** * Further properties of the layers *)

(** ** The dimension at the axis *)

Lemma concat_dim_cons (d : dim) (col : list dim) :
  concat_dim (d :: col) =
    match d, concat_dim col with
    | Some n, Some m => Some (n + m)
    | _, _ => None
    end.
Proof.
  unfold concat_dim. destruct d as [n|]; simpl; [|done].
  by destruct (none_in col).
Qed.

Lemma concat_dim_app (c1 c2 : list dim) :
  concat_dim (c1 ++ c2) =
    match concat_dim c1, concat_dim c2 with
    | Some n, Some m => Some (n + m)
    | _, _ => None
    end.
Proof.
  induction c1 as [|d c1 IH].
  - simpl. change (concat_dim []) with (Some 0).
    destruct (concat_dim c2) as [m|]; [|done]. f_equal.
  - rewrite <- app_comm_cons, !concat_dim_cons, IH.
    destruct d as [n|]; [|done].
    destruct (concat_dim c1) as [k|], (concat_dim c2) as [m|]; try done.
    f_equal. lia.
Qed.

Lemma concat_dim_nested (c1 c2 : list dim) :
  concat_dim (concat_dim c1 :: c2) = concat_dim (c1 ++ c2).
Proof. by rewrite concat_dim_cons, concat_dim_app. Qed.

Lemma concat_dim_singleton (d : dim) : concat_dim [d] = d.
Proof.
  rewrite concat_dim_cons. change (concat_dim []) with (Some 0).
  destruct d as [n|]; [|done]. f_equal. lia.
Qed.

Lemma concat_dim_perm (col col' : list dim) :
  col ≡ₚ col' → concat_dim col = concat_dim col'.
Proof.
  induction 1 as [|d c c' _ IH|d d' c|c c' c'' _ IH1 _ IH2].
  - done.
  - by rewrite !concat_dim_cons, IH.
  - rewrite !concat_dim_cons.
    destruct d as [n|], d' as [n'|], (concat_dim c) as [m|]; try done.
    f_equal. lia.
  - congruence.
Qed.

Lemma concat_dim_replicate (k : nat) (d : dim) :
  (0 < k)%nat →
  concat_dim (replicate k d) = (fun n => Z.of_nat k * n) <$> d.
Proof.
  intros Hk. destruct d as [n|]; simpl.
  - clear Hk. induction k as [|k IH]; [done|].
    simpl. rewrite concat_dim_cons, IH. f_equal. lia.
  - destruct k as [|k]; [lia|]. done.
Qed.

(** The entry computed for the axis is [concat_dim] of the column; the sum
    is only taken when no dimension is unknown, so it never fails. *)
Lemma mid_concat_dim (col : list dim) :
  (if negb (none_in col) then s ← py_sum col; mret (Some s) else mret None)
  = Ok (concat_dim col).
Proof.
  unfold concat_dim. destruct (none_in col) eqn:Hnone; cbn [negb]; [done|].
  apply none_in_false in Hnone as [ns ->]. rewrite py_sum_known, bind_Ok.
  unfold mret, result_ret. do 3 f_equal.
  induction ns as [|n ns IH]; csimpl; [done|]. by rewrite <- IH.
Qed.

Lemma infer_output_shape_cons (self : ConcatenateLayer.t)
    (s0 : shape) (rest : list shape) :
  ConcatenateLayer.axis self = -1 ∨ 0 ≤ ConcatenateLayer.axis self →
  ConcatenateLayer.infer_output_shape self (list_of_shapes (s0 :: rest)) =
    if forallb (fun s => utils.compare_shapes
                  (non_axis_dims (ConcatenateLayer.axis self) s)
                  (non_axis_dims (ConcatenateLayer.axis self) s0) false) (s0 :: rest)
    then
      col ← py_comprehension (fun s => py_getitem s (ConcatenateLayer.axis self))
              (s0 :: rest);
      Ok ((py_slice_to s0 (ConcatenateLayer.axis self) ++ [concat_dim col]) ++
          (if ConcatenateLayer.axis self =? -1 then []
           else py_slice_from s0 (ConcatenateLayer.axis self + 1)))
    else Raise ValueError.
Proof.
  intros Ha. rewrite infer_output_shape_shapes by done. cbv beta iota.
  match goal with |- context [forallb ?f ?l] => destruct (forallb f l) end; [|done].
  destruct (py_comprehension (fun s => py_getitem s (ConcatenateLayer.axis self))
              (s0 :: rest)) as [col|e]; [|done].
  rewrite !bind_Ok, mid_concat_dim. done.
Qed.

(** ** Descriptors that reach the axis *)

Lemma getitem_has_axis (s : shape) (a : Z) (d : dim) :
  a = -1 ∨ 0 ≤ a → py_getitem s a = Ok d → has_axis a s.
Proof.
  intros Ha Hd. unfold has_axis.
  destruct (Z.eqb_spec a (-1)) as [->|Hne].
  - intros ->. by rewrite py_getitem_nil in Hd.
  - destruct Ha as [?|Ha]; [done|].
    rewrite py_getitem_nonneg in Hd by done.
    match type of Hd with
    | context [match ?t with _ => _ end] => destruct t as [x|] eqn:Hx; [|done]
    end.
    apply lookup_lt_Some in Hx. lia.
Qed.

Lemma no_axis_IndexError (s : shape) (a : Z) :
  a = -1 ∨ 0 ≤ a → ¬ has_axis a s → py_getitem s a = Raise IndexError.
Proof.
  intros Ha Hs. destruct (py_getitem s a) as [d|e] eqn:Hd.
  - by apply getitem_has_axis in Hd.
  - by apply py_getitem_raise in Hd as ->.
Qed.

Lemma has_axis_split (a : Z) (s : shape) :
  a = -1 ∨ 0 ≤ a → has_axis a s → ∃ x, s = join x ∧ split_at a x.
Proof.
  unfold has_axis, split_at, join.
  destruct (Z.eqb_spec a (-1)) as [->|Hne]; intros Ha Hs.
  - destruct s as [|d s _] using rev_ind; [done|].
    by exists {| before := s; at_axis := d; after := [] |}.
  - destruct (lookup_lt_is_Some_2 s (Z.to_nat a)) as [d Hd]; [lia|].
    exists {| before := take (Z.to_nat a) s; at_axis := d;
              after := drop (S (Z.to_nat a)) s |}.
    simpl. split; [by rewrite take_drop_middle|].
    rewrite length_take. lia.
Qed.

Lemma split_has_axis (a : Z) (x : split_shape) :
  a = -1 ∨ 0 ≤ a → split_at a x → has_axis a (join x).
Proof.
  intros Ha Hx. eapply getitem_has_axis; [done|]. by apply split_getitem.
Qed.

Lemma Forall_has_axis_split (a : Z) (shapes : list shape) :
  a = -1 ∨ 0 ≤ a → Forall (has_axis a) shapes →
  ∃ xs, shapes = join <$> xs ∧ Forall (split_at a) xs.
Proof.
  intros Ha. induction 1 as [|s shapes Hs _ (xs & -> & Hxs)].
  - by exists [].
  - destruct (has_axis_split a s Ha Hs) as (x & -> & Hx).
    exists (x :: xs). split; [done|]. by constructor.
Qed.

Lemma py_comprehension_Ok_inv {A B} (f : A → result B) (l : list A) (ys : list B) :
  py_comprehension f l = Ok ys → Forall2 (fun x y => f x = Ok y) l ys.
Proof.
  revert ys. induction l as [|x l IH]; simpl; intros ys.
  - intros [= <-]. constructor.
  - destruct (f x) as [y|e] eqn:Hx; simpl; [|done].
    destruct (py_comprehension f l) as [ys'|e]; simpl; [|done].
    intros [= <-]. constructor; auto.
Qed.

(** The output on inputs cut at the axis. *)
Lemma concat_split_result (self : ConcatenateLayer.t)
    (x0 : split_shape) (xs : list split_shape) :
  ConcatenateLayer.axis self = -1 ∨ 0 ≤ ConcatenateLayer.axis self →
  Forall (split_at (ConcatenateLayer.axis self)) (x0 :: xs) →
  Forall (fun x => shapes_compatible (before x ++ after x) (before x0 ++ after x0)) xs →
  ConcatenateLayer.infer_output_shape self (list_of_shapes (join <$> x0 :: xs))
  = Ok (before x0 ++ concat_dim (at_axis <$> x0 :: xs) :: after x0).
Proof.
  intros Ha Hsplit Hcompat.
  set (a := ConcatenateLayer.axis self) in *.
  pose proof (Forall_inv Hsplit) as Hx0.
  change (join <$> x0 :: xs) with (join x0 :: (join <$> xs)).
  rewrite infer_output_shape_cons by done. fold a.
  replace (forallb _ (join x0 :: (join <$> xs))) with true.
  2:{ symmetry. apply consistent_check, consistent_cons, Forall_fmap.
      apply Forall_inv_tail in Hsplit.
      rewrite Forall_forall in Hsplit, Hcompat. apply Forall_forall. intros x Hx.
      simpl. rewrite !split_non_axis_dims by auto. auto. }
  change (join x0 :: (join <$> xs)) with (join <$> x0 :: xs).
  rewrite split_column, bind_Ok, split_slice_to by done.
  rewrite <- app_assoc. do 2 f_equal. simpl. f_equal.
  destruct (Z.eqb_spec a (-1)) as [Heq|Hne].
  - unfold split_at in Hx0. rewrite Heq in Hx0. done.
  - by apply split_slice_from.
Qed.

(** ** ConcatenateLayer.infer_output_shape: which exceptions, and when *)

(** X1.  On any argument, a list of shapes or not, [infer_output_shape] of a
    ConcatenateLayer with a supported axis raises nothing but [ValueError]
    and [IndexError]: the subscripts are guarded by the test on the
    argument, and the sum by the test for [None]. *)
Theorem concatenate_exceptions (self : ConcatenateLayer.t) (v : list pyelem) (e : exn) :
  ConcatenateLayer.axis self ∈ ConcatenateLayer.supported_axes →
  ConcatenateLayer.infer_output_shape self v = Raise e →
  e = ValueError ∨ e = IndexError.
Proof.
  intros Ha%supported_axes_range.
  destruct (py.islistoflists v) eqn:Hv.
  - apply islistoflists_spec in Hv as [shapes ->].
    destruct shapes as [|s0 rest].
    + rewrite infer_output_shape_shapes by done. intros [= <-]. by right.
    + rewrite infer_output_shape_cons by done.
      match goal with |- context [forallb ?f ?l] => destruct (forallb f l) end.
      * destruct (py_comprehension
                    (fun s => py_getitem s (ConcatenateLayer.axis self))
                    (s0 :: rest)) as [col|e'] eqn:Hcol; [done|].
        intros [= <-]. right.
        by apply (py_comprehension_raise (fun e => e = IndexError)) in Hcol;
          [|intros ??; apply py_getitem_raise].
      * intros [= <-]. by left.
  - rewrite infer_output_shape_not_list by done. intros [= <-]. by left.
Qed.

Lemma concatenate_exceptions_witness :
  IndexError = ValueError ∨ IndexError = IndexError.
Proof.
  apply (concatenate_exceptions
    {| ConcatenateLayer.axis := 2; ConcatenateLayer.input_shape := [];
       ConcatenateLayer.num_inputs := 2 |}
    (list_of_shapes [[Some 2; Some 3]; [Some 2; Some 3]]) IndexError).
  - do 2 right; left.
  - reflexivity.
Defined.

(** X2.  On a non-empty list of shape descriptors that passes the
    consistency check, [infer_output_shape] raises [IndexError] exactly when
    some descriptor has no dimension at the axis. *)
Theorem concatenate_index_error (self : ConcatenateLayer.t)
    (s0 : shape) (rest : list shape) :
  ConcatenateLayer.axis self ∈ ConcatenateLayer.supported_axes →
  consistent (ConcatenateLayer.axis self) (s0 :: rest) →
  ConcatenateLayer.infer_output_shape self (list_of_shapes (s0 :: rest))
    = Raise IndexError
  ↔ ¬ Forall (has_axis (ConcatenateLayer.axis self)) (s0 :: rest).
Proof.
  intros Ha%supported_axes_range Hc%consistent_check.
  rewrite infer_output_shape_cons, Hc by done.
  destruct (py_comprehension (fun s => py_getitem s (ConcatenateLayer.axis self))
              (s0 :: rest)) as [col|e] eqn:Hcol.
  - rewrite bind_Ok. split; [done|]. intros []. 
    apply py_comprehension_Ok_inv in Hcol.
    eapply Forall2_Forall_l; [exact Hcol|]. apply Forall_true.
    intros d s Hs. by eapply getitem_has_axis.
  - rewrite bind_Raise.
    assert (e = IndexError) as ->.
    { by apply (py_comprehension_raise (fun e => e = IndexError)) in Hcol;
        [|intros ??; apply py_getitem_raise]. }
    split; [|done]. intros _ Hax.
    destruct (py_comprehension_ok (fun s => py_getitem s (ConcatenateLayer.axis self))
                (s0 :: rest)) as [col Hcol'].
    { eapply Forall_impl; [exact Hax|]. intros s Hs. by apply py_getitem_ok. }
    congruence.
Qed.

Lemma concatenate_index_error_witness :
  ConcatenateLayer.infer_output_shape
    {| ConcatenateLayer.axis := 1; ConcatenateLayer.input_shape := [];
       ConcatenateLayer.num_inputs := 2 |}
    (list_of_shapes [[Some 2; Some 3]; [Some 2]])
  = Raise IndexError.
Proof.
  apply (concatenate_index_error
    {| ConcatenateLayer.axis := 1; ConcatenateLayer.input_shape := [];
       ConcatenateLayer.num_inputs := 2 |} [Some 2; Some 3] [[Some 2]]).
  - right; left.
  - apply consistent_cons. repeat constructor.
    intros [|[|j]] m n; simpl; congruence.
  - intros Hax. apply Forall_inv_tail, Forall_inv in Hax.
    unfold has_axis in Hax. simpl in Hax. lia.
Defined.

(** ** ConcatenateLayer.infer_output_shape: the shape that is returned *)

(** X3.  Whenever [infer_output_shape] of a ConcatenateLayer returns a shape
    for a list of descriptors, that shape has as many dimensions as the first
    descriptor, has a dimension at the axis, and agrees with the first
    descriptor at every position other than the axis. *)
Theorem concatenate_preserves_rank (self : ConcatenateLayer.t)
    (s0 : shape) (rest : list shape) (out : shape) :
  ConcatenateLayer.axis self ∈ ConcatenateLayer.supported_axes →
  ConcatenateLayer.infer_output_shape self (list_of_shapes (s0 :: rest)) = Ok out →
  length out = length s0
  ∧ has_axis (ConcatenateLayer.axis self) out
  ∧ non_axis_dims (ConcatenateLayer.axis self) out
    = non_axis_dims (ConcatenateLayer.axis self) s0.
Proof.
  intros Ha%supported_axes_range.
  set (a := ConcatenateLayer.axis self) in *.
  rewrite infer_output_shape_cons by done. fold a.
  match goal with |- context [forallb ?f ?l] => destruct (forallb f l) end; [|done].
  destruct (py_comprehension (fun s => py_getitem s a) (s0 :: rest))
    as [col|e] eqn:Hcol; [rewrite bind_Ok|done].
  apply py_comprehension_Ok_inv in Hcol.
  destruct col as [|d col]; [by apply Forall2_nil_inv_r in Hcol|].
  apply Forall2_cons_1 in Hcol as [Hd _].
  apply getitem_has_axis in Hd; [|done].
  destruct (has_axis_split a s0 Ha Hd) as (x0 & -> & Hx0).
  rewrite split_slice_to by done.
  assert (Hsuf : (if a =? -1 then [] else py_slice_from (join x0) (a + 1)) = after x0).
  { destruct (Z.eqb_spec a (-1)) as [Heq|Hne].
    - unfold split_at in Hx0. rewrite Heq in Hx0. done.
    - by apply split_slice_from. }
  rewrite Hsuf, <- app_assoc. intros [= <-].
  set (x1 := {| before := before x0; at_axis := concat_dim (d :: col);
                after := after x0 |}).
  change (before x0 ++ [concat_dim (d :: col)] ++ after x0) with (join x1).
  assert (Hx1 : split_at a x1) by done.
  split_and!.
  - unfold join. rewrite !length_app. done.
  - by apply (split_has_axis a x1).
  - transitivity (non_axis_dims a (join x1)); [done|].
    by rewrite (split_non_axis_dims a x1), (split_non_axis_dims a x0).
Qed.

Lemma concatenate_preserves_rank_witness :
  length [Some 2; Some 8; Some 4] = length [Some 2; Some 3; Some 4]
  ∧ has_axis 1 [Some 2; Some 8; Some 4]
  ∧ non_axis_dims 1 [Some 2; Some 8; Some 4] = non_axis_dims 1 [Some 2; Some 3; Some 4].
Proof.
  apply (concatenate_preserves_rank
    {| ConcatenateLayer.axis := 1; ConcatenateLayer.input_shape := [];
       ConcatenateLayer.num_inputs := 2 |}
    [Some 2; Some 3; Some 4] [[Some 2; Some 5; Some 4]] [Some 2; Some 8; Some 4]).
  - right; left.
  - reflexivity.
Defined.

(** X4.  Concatenating a single input changes nothing: on a list holding one
    descriptor that has a dimension at the axis, [infer_output_shape] returns
    that descriptor, whether its dimension at the axis is known or not. *)
Theorem concatenate_single_input (self : ConcatenateLayer.t) (s : shape) :
  ConcatenateLayer.axis self ∈ ConcatenateLayer.supported_axes →
  has_axis (ConcatenateLayer.axis self) s →
  ConcatenateLayer.infer_output_shape self (list_of_shapes [s]) = Ok s.
Proof.
  intros Ha%supported_axes_range Hs.
  destruct (has_axis_split _ s Ha Hs) as (x & -> & Hx).
  change [join x] with (join <$> [x]).
  rewrite concat_split_result; [|done|by constructor|constructor].
  simpl. by rewrite concat_dim_singleton.
Qed.

Lemma concatenate_single_input_witness :
  ConcatenateLayer.infer_output_shape
    {| ConcatenateLayer.axis := -1; ConcatenateLayer.input_shape := [];
       ConcatenateLayer.num_inputs := 1 |}
    (list_of_shapes [[Some 2; None]])
  = Ok [Some 2; None].
Proof.
  apply (concatenate_single_input
    {| ConcatenateLayer.axis := -1; ConcatenateLayer.input_shape := [];
       ConcatenateLayer.num_inputs := 1 |} [Some 2; None]).
  - do 5 right; left.
  - unfold has_axis. simpl. done.
Defined.

(** ** ConcatenateLayer.infer_output_shape: order and grouping of the inputs *)

Lemma forallb_perm {A} (f : A → bool) (l l' : list A) :
  l ≡ₚ l' → forallb f l = forallb f l'.
Proof.
  induction 1 as [|x l l' _ IH|x y l|l l' l'' _ IH1 _ IH2]; simpl.
  - done.
  - by rewrite IH.
  - by destruct (f x), (f y).
  - congruence.
Qed.

Lemma same_column_trans (r1 r2 r3 : result (list dim)) :
  same_column r1 r2 → same_column r2 r3 → same_column r1 r3.
Proof.
  intros [(c1 & c2 & -> & -> & H12)|[-> ->]] [(c2' & c3 & [= <-] & -> & H23)|[? ->]];
    try done.
  - left. exists c1, c3. split_and!; [done..|]. by etrans.
  - by right.
Qed.

Lemma column_perm (a : Z) (l l' : list shape) :
  l ≡ₚ l' →
  same_column (py_comprehension (fun s => py_getitem s a) l)
              (py_comprehension (fun s => py_getitem s a) l').
Proof.
  assert (Hraise : ∀ (k : list shape) e,
            py_comprehension (fun s => py_getitem s a) k = Raise e → e = IndexError).
  { intros k e Hk.
    by apply (py_comprehension_raise (fun e => e = IndexError)) in Hk;
      [|intros ??; apply py_getitem_raise]. }
  induction 1 as [|x l l' _ IH|x y l|l l' l'' _ IH1 _ IH2].
  - left. by exists [], [].
  - simpl. destruct (py_getitem x a) as [d|e] eqn:Hx; simpl.
    + destruct IH as [(c & c' & -> & -> & Hc)|[-> ->]]; simpl.
      * left. exists (d :: c), (d :: c'). split_and!; [done..|]. by constructor.
      * by right.
    + apply py_getitem_raise in Hx as ->. by right.
  - simpl.
    destruct (py_getitem x a) as [d|e] eqn:Hx; simpl;
      [|apply py_getitem_raise in Hx as ->];
      (destruct (py_getitem y a) as [d'|e'] eqn:Hy; simpl;
         [|apply py_getitem_raise in Hy as ->]);
      try (by right);
      destruct (py_comprehension (fun s => py_getitem s a) l) as [c|e''] eqn:Hl;
      simpl; try (apply Hraise in Hl as ->); try (by right).
    left. exists (d' :: d :: c), (d :: d' :: c). split_and!; [done..|]. by constructor.
  - by eapply same_column_trans.
Qed.

(** X5.  The result of [infer_output_shape] of a ConcatenateLayer, a shape
    or an exception, does not depend on the order of the inputs that follow
    the first one. *)
Theorem concatenate_order_of_inputs (self : ConcatenateLayer.t)
    (s0 : shape) (rest rest' : list shape) :
  ConcatenateLayer.axis self ∈ ConcatenateLayer.supported_axes →
  rest ≡ₚ rest' →
  ConcatenateLayer.infer_output_shape self (list_of_shapes (s0 :: rest))
  = ConcatenateLayer.infer_output_shape self (list_of_shapes (s0 :: rest')).
Proof.
  intros Ha%supported_axes_range Hperm.
  assert (Hperm' : s0 :: rest ≡ₚ s0 :: rest') by by constructor.
  rewrite !infer_output_shape_cons by done.
  rewrite (forallb_perm _ _ _ Hperm').
  match goal with |- context [forallb ?f ?l] => destruct (forallb f l) end; [|done].
  destruct (column_perm (ConcatenateLayer.axis self) _ _ Hperm')
    as [(c & c' & -> & -> & Hc)|[-> ->]]; [|done].
  rewrite !bind_Ok. by rewrite (concat_dim_perm _ _ Hc).
Qed.

Lemma concatenate_order_of_inputs_witness :
  ConcatenateLayer.infer_output_shape
    {| ConcatenateLayer.axis := 0; ConcatenateLayer.input_shape := [];
       ConcatenateLayer.num_inputs := 3 |}
    (list_of_shapes [[Some 1; Some 4]; [Some 2; Some 4]; [None; Some 4]])
  = ConcatenateLayer.infer_output_shape
      {| ConcatenateLayer.axis := 0; ConcatenateLayer.input_shape := [];
         ConcatenateLayer.num_inputs := 3 |}
      (list_of_shapes [[Some 1; Some 4]; [None; Some 4]; [Some 2; Some 4]]).
Proof.
  apply (concatenate_order_of_inputs
    {| ConcatenateLayer.axis := 0; ConcatenateLayer.input_shape := [];
       ConcatenateLayer.num_inputs := 3 |}
    [Some 1; Some 4] [[Some 2; Some 4]; [None; Some 4]]
    [[None; Some 4]; [Some 2; Some 4]]).
  - left.
  - apply perm_swap.
Defined.

(** X6.  Concatenation can be grouped: for inputs that are consistent and
    have a dimension at the axis, concatenating the first group and then
    concatenating the result with the remaining inputs gives the shape of
    concatenating all of them at once. *)
Theorem concatenate_grouping (self : ConcatenateLayer.t)
    (x0 : split_shape) (xs ys : list split_shape) :
  ConcatenateLayer.axis self ∈ ConcatenateLayer.supported_axes →
  Forall (split_at (ConcatenateLayer.axis self)) (x0 :: xs ++ ys) →
  Forall (fun x => shapes_compatible (before x ++ after x) (before x0 ++ after x0))
    (xs ++ ys) →
  ∃ out,
    ConcatenateLayer.infer_output_shape self (list_of_shapes (join <$> x0 :: xs))
      = Ok out
    ∧ ConcatenateLayer.infer_output_shape self
        (list_of_shapes (out :: (join <$> ys)))
      = ConcatenateLayer.infer_output_shape self
          (list_of_shapes (join <$> x0 :: xs ++ ys)).
Proof.
  intros Ha%supported_axes_range Hsplit Hcompat.
  apply Forall_cons in Hsplit as [Hx0 [Hxs Hys]%Forall_app].
  apply Forall_app in Hcompat as [Hcxs Hcys].
  set (x1 := {| before := before x0; at_axis := concat_dim (at_axis <$> x0 :: xs);
                after := after x0 |}).
  exists (join x1). split.
  - by rewrite concat_split_result by (done || by constructor).
  - change (join x1 :: (join <$> ys)) with (join <$> x1 :: ys).
    rewrite !concat_split_result;
      try done; try (by constructor); try (by apply Forall_app);
      try (constructor; [done|by apply Forall_app]).
    simpl. rewrite fmap_app.
    change (concat_dim (at_axis x0 :: (at_axis <$> xs)) :: (at_axis <$> ys))
      with (concat_dim (at_axis <$> x0 :: xs) :: (at_axis <$> ys)).
    by rewrite concat_dim_nested.
Qed.

Lemma concatenate_grouping_witness :
  ∃ out,
    ConcatenateLayer.infer_output_shape
      {| ConcatenateLayer.axis := 1; ConcatenateLayer.input_shape := [];
         ConcatenateLayer.num_inputs := 2 |}
      (list_of_shapes [[Some 2; Some 3]; [Some 2; Some 5]]) = Ok out
    ∧ ConcatenateLayer.infer_output_shape
        {| ConcatenateLayer.axis := 1; ConcatenateLayer.input_shape := [];
           ConcatenateLayer.num_inputs := 2 |}
        (list_of_shapes [out; [None; Some 7]])
      = ConcatenateLayer.infer_output_shape
          {| ConcatenateLayer.axis := 1; ConcatenateLayer.input_shape := [];
             ConcatenateLayer.num_inputs := 2 |}
          (list_of_shapes [[Some 2; Some 3]; [Some 2; Some 5]; [None; Some 7]]).
Proof.
  apply (concatenate_grouping
    {| ConcatenateLayer.axis := 1; ConcatenateLayer.input_shape := [];
       ConcatenateLayer.num_inputs := 2 |}
    {| before := [Some 2]; at_axis := Some 3; after := [] |}
    [{| before := [Some 2]; at_axis := Some 5; after := [] |}]
    [{| before := [None]; at_axis := Some 7; after := [] |}]).
  - right; left.
  - repeat constructor.
  - repeat constructor; intros [|[|j]] m n; simpl; congruence.
Defined.

(** ** ReplicateLayer, alone and followed by other layers *)

(** X7.  With [num_replicate <= 0] a ReplicateLayer raises nothing: both
    [infer_output_shape] and [feedforward] return the empty list. *)
Theorem replicate_non_positive {A B : Type} (self : ReplicateLayer.t) (s : A) (x : B) :
  ReplicateLayer.num_replicate self ≤ 0 →
  ReplicateLayer.infer_output_shape self s = []
  ∧ ReplicateLayer.feedforward self x = [].
Proof.
  intros Hn.
  unfold ReplicateLayer.infer_output_shape, ReplicateLayer.feedforward, py_list_repeat.
  by replace (Z.to_nat (ReplicateLayer.num_replicate self)) with 0%nat by lia.
Qed.

Lemma replicate_non_positive_witness :
  ReplicateLayer.infer_output_shape
    {| ReplicateLayer.num_replicate := -2; ReplicateLayer.input_shape := [] |}
    [Dim (Some 3)] = []
  ∧ ReplicateLayer.feedforward
      {| ReplicateLayer.num_replicate := -2; ReplicateLayer.input_shape := [] |}
      7 = [].
Proof.
  apply (replicate_non_positive
    {| ReplicateLayer.num_replicate := -2; ReplicateLayer.input_shape := [] |}).
  simpl. lia.
Defined.

Lemma replicate_shapes (self : ReplicateLayer.t) (s : shape) :
  ReplicateLayer.infer_output_shape self (Shp s)
  = list_of_shapes (replicate (Z.to_nat (ReplicateLayer.num_replicate self)) s).
Proof.
  unfold ReplicateLayer.infer_output_shape, py_list_repeat, list_of_shapes.
  by rewrite fmap_replicate.
Qed.

(** X8.  Replicating a shape and concatenating the copies multiplies the
    dimension at the axis: for a ReplicateLayer with [num_replicate >= 1] and
    a descriptor with a dimension at the axis, the ConcatenateLayer returns
    the descriptor with that dimension multiplied by [num_replicate] when it
    is known, and left unknown otherwise. *)
Theorem replicate_then_concatenate (rep : ReplicateLayer.t)
    (self : ConcatenateLayer.t) (x : split_shape) :
  ConcatenateLayer.axis self ∈ ConcatenateLayer.supported_axes →
  split_at (ConcatenateLayer.axis self) x →
  1 ≤ ReplicateLayer.num_replicate rep →
  ConcatenateLayer.infer_output_shape self
    (ReplicateLayer.infer_output_shape rep (Shp (join x)))
  = Ok (before x
        ++ ((fun n => ReplicateLayer.num_replicate rep * n) <$> at_axis x)
        :: after x).
Proof.
  intros Ha%supported_axes_range Hx Hn.
  rewrite replicate_shapes.
  destruct (Z.to_nat (ReplicateLayer.num_replicate rep)) as [|k] eqn:Hk; [lia|].
  rewrite <- (fmap_replicate join).
  change (replicate (S k) x) with (x :: replicate k x).
  rewrite concat_split_result; [|done|..].
  - change (x :: replicate k x) with (replicate (S k) x).
    rewrite fmap_replicate, concat_dim_replicate by lia.
    do 2 f_equal. destruct (at_axis x) as [n|]; simpl; [|done].
    by replace (ReplicateLayer.num_replicate rep) with (Z.of_nat (S k)) by lia.
  - constructor; [done|]. by apply Forall_replicate.
  - apply Forall_replicate, shapes_compatible_refl.
Qed.

Lemma replicate_then_concatenate_witness :
  ConcatenateLayer.infer_output_shape
    {| ConcatenateLayer.axis := 1; ConcatenateLayer.input_shape := [];
       ConcatenateLayer.num_inputs := 3 |}
    (ReplicateLayer.infer_output_shape
       {| ReplicateLayer.num_replicate := 3; ReplicateLayer.input_shape := [] |}
       (Shp [None; Some 5; Some 4]))
  = Ok [None; Some 15; Some 4].
Proof.
  apply (replicate_then_concatenate
    {| ReplicateLayer.num_replicate := 3; ReplicateLayer.input_shape := [] |}
    {| ConcatenateLayer.axis := 1; ConcatenateLayer.input_shape := [];
       ConcatenateLayer.num_inputs := 3 |}
    {| before := [None]; at_axis := Some 5; after := [Some 4] |}).
  - right; left.
  - reflexivity.
  - simpl. lia.
Defined.

(** X9.  Replicating a shape and adding the copies gives the shape back: an
    AddLayer constructed for [num_inputs] inputs accepts the output of a
    ReplicateLayer with [num_replicate = num_inputs] and returns the
    replicated descriptor. *)
Theorem replicate_then_add `{Collaborators}
    (num_inputs : option Z) (dimensions : option dimensions_arg)
    (input_shape : option (list pyelem)) (kwargs : layer_kwargs)
    (self : AddLayer.t) (rep : ReplicateLayer.t) (s : shape) :
  AddLayer.init num_inputs dimensions input_shape kwargs = Ok self →
  ReplicateLayer.num_replicate rep = AddLayer.num_inputs self →
  AddLayer.infer_output_shape self (ReplicateLayer.infer_output_shape rep (Shp s))
  = Ok (Shp s).
Proof.
  intros Hn%add_init_num_inputs Hrep.
  rewrite replicate_shapes, Hrep.
  destruct (Z.to_nat (AddLayer.num_inputs self)) as [|k] eqn:Hk; [lia|].
  destruct (proj1 (add_infer_invariant self
              (list_of_shapes (replicate (S k) s)) Hn)) as (s0 & Hhd & Hout).
  - exists (replicate (S k) s). split_and!; [done| |].
    + rewrite length_replicate. lia.
    + intros s0 s' [= <-] [-> _]%elem_of_replicate.
      apply shapes_compatible_refl.
  - simpl in Hhd. injection Hhd as <-. exact Hout.
Qed.

Lemma replicate_then_add_witness :
  AddLayer.infer_output_shape
    {| AddLayer.input_shape := list_of_shapes [[Some 4]; [Some 4]];
       AddLayer.num_inputs := 2 |}
    (ReplicateLayer.infer_output_shape
       {| ReplicateLayer.num_replicate := 2; ReplicateLayer.input_shape := [] |}
       (Shp [None; Some 6]))
  = Ok (Shp [None; Some 6]).
Proof.
  exact (@replicate_then_add example_collaborators None None
    (Some (list_of_shapes [[Some 4]; [Some 4]])) tt _
    {| ReplicateLayer.num_replicate := 2; ReplicateLayer.input_shape := [] |}
    [None; Some 6] eq_refl eq_refl).
Defined.

(** ** Construction of the layers *)

(** X10.  A ConcatenateLayer that has been constructed holds the axis it was
    given, and that axis is a supported one; conversely, with a supported
    axis the construction succeeds as soon as the base class is initialised
    and the input shape resolved, and stores what the resolver returned. *)
Theorem concatenate_init_axis `{Collaborators}
    (num_inputs : option Z) (axis : Z) (dimensions : option dimensions_arg)
    (input_shape : option (list pyelem)) (kwargs : layer_kwargs) :
  (∀ self,
     ConcatenateLayer.init num_inputs axis dimensions input_shape kwargs = Ok self →
     ConcatenateLayer.axis self = axis ∧ axis ∈ ConcatenateLayer.supported_axes)
  ∧ (∀ resolved_shape resolved_num_inputs,
       Layer_init kwargs = Ok tt →
       get_input_shape dimensions num_inputs input_shape
         = Ok (resolved_shape, resolved_num_inputs) →
       axis ∈ ConcatenateLayer.supported_axes →
       ConcatenateLayer.init num_inputs axis dimensions input_shape kwargs
       = Ok {| ConcatenateLayer.axis := axis;
               ConcatenateLayer.input_shape := resolved_shape;
               ConcatenateLayer.num_inputs := resolved_num_inputs |}).
Proof.
  unfold ConcatenateLayer.init. split.
  - intros self. destruct (Layer_init kwargs) as [[]|e]; [rewrite bind_Ok|done].
    destruct (bool_decide_reflect (axis ∈ ConcatenateLayer.supported_axes))
      as [Hin|Hout]; [|done].
    cbn [py_assert]. rewrite bind_Ok.
    destruct (get_input_shape dimensions num_inputs input_shape) as [r|e]; [|done].
    rewrite bind_Ok. by intros [= <-].
  - intros shp k Hbase Hshape Hin.
    by rewrite Hbase, bind_Ok, bool_decide_eq_true_2, Hshape by done.
Qed.

Lemma concatenate_init_axis_witness :
  @ConcatenateLayer.init example_collaborators None 4 None
    (Some (list_of_shapes [[Some 4]; [Some 4]])) tt
  = Ok {| ConcatenateLayer.axis := 4;
          ConcatenateLayer.input_shape := list_of_shapes [[Some 4]; [Some 4]];
          ConcatenateLayer.num_inputs := 2 |}
  ∧ (4 = 4 ∧ 4 ∈ ConcatenateLayer.supported_axes).
Proof.
  pose proof (@concatenate_init_axis example_collaborators None 4 None
    (Some (list_of_shapes [[Some 4]; [Some 4]])) tt) as [Hself Hinit].
  split.
  - apply (Hinit (list_of_shapes [[Some 4]; [Some 4]]) 2 eq_refl eq_refl).
    do 4 right; left.
  - exact (Hself _ eq_refl).
Defined.

(** X11.  An exception raised by the base-class initialiser is the outcome of
    every constructor, whatever the other arguments are: no layer validates
    an argument before the base class is initialised. *)
Theorem base_exception_propagates `{Collaborators} (kwargs : layer_kwargs) (e : exn)
    (dimensions : option dimensions_arg) (input_shape : option (list pyelem))
    (num_inputs : option Z) :
  Layer_init kwargs = Raise e →
  (∀ num_replicate,
     ReplicateLayer.init num_replicate dimensions input_shape kwargs = Raise e)
  ∧ (∀ axis,
       ConcatenateLayer.init num_inputs axis dimensions input_shape kwargs = Raise e)
  ∧ AddLayer.init num_inputs dimensions input_shape kwargs = Raise e
  ∧ IdentityLayer.init dimensions input_shape kwargs = Raise e
  ∧ (∀ function shape_inference_function parameters,
       FunctionLayer.init function shape_inference_function parameters num_inputs
         dimensions input_shape kwargs = Raise e).
Proof.
  intros Hbase.
  unfold ReplicateLayer.init, ConcatenateLayer.init, AddLayer.init,
    IdentityLayer.init, FunctionLayer.init.
  rewrite Hbase. by split_and!.
Qed.

Lemma base_exception_propagates_witness :
  let failing := {|
    layer_kwargs := unit; Layer_init := fun _ => Raise TypeError;
    dimensions_arg := Z; get_input_shape := fun _ _ _ => Raise ValueError;
    value := Z; parameter := unit; register_parameter := fun _ => Ok tt |} in
  @ConcatenateLayer.init failing None 7 None None tt = Raise TypeError
  ∧ @FunctionLayer.init failing PyObject PyObject None None None None tt
    = Raise TypeError.
Proof.
  intros failing.
  destruct (@base_exception_propagates failing tt TypeError None None None eq_refl)
    as (_ & Hcat & _ & _ & Hfun).
  split; [apply Hcat|apply Hfun].
Defined.

(** X12.  Once the base class is initialised, an exception raised by the
    input-shape resolver is the outcome of the constructors of AddLayer, of
    ConcatenateLayer with a supported axis, and of FunctionLayer with a
    callable [function] and a [shape_inference_function] that is [None] or
    callable, even when [parameters] is [None]; ReplicateLayer and
    IdentityLayer propagate the exception of the resolver called for one
    input. *)
Theorem resolver_exception_propagates `{Collaborators} (kwargs : layer_kwargs)
    (e : exn) (dimensions : option dimensions_arg)
    (input_shape : option (list pyelem)) (num_inputs : option Z) :
  Layer_init kwargs = Ok tt →
  (get_input_shape dimensions num_inputs input_shape = Raise e →
   AddLayer.init num_inputs dimensions input_shape kwargs = Raise e
   ∧ (∀ axis, axis ∈ ConcatenateLayer.supported_axes →
        ConcatenateLayer.init num_inputs axis dimensions input_shape kwargs = Raise e)
   ∧ (∀ function shape_inference_function parameters,
        callable function = true →
        shape_inference_function = PyNone ∨ callable shape_inference_function = true →
        FunctionLayer.init function shape_inference_function parameters num_inputs
          dimensions input_shape kwargs = Raise e))
  ∧ (get_input_shape dimensions (Some 1) input_shape = Raise e →
     (∀ num_replicate,
        ReplicateLayer.init num_replicate dimensions input_shape kwargs = Raise e)
     ∧ IdentityLayer.init dimensions input_shape kwargs = Raise e).
Proof.
  intros Hbase.
  unfold ReplicateLayer.init, ConcatenateLayer.init, AddLayer.init,
    IdentityLayer.init, FunctionLayer.init.
  rewrite Hbase, !bind_Ok. split; intros Hshape; rewrite Hshape; split_and!; try done.
  - intros axis Hin. by rewrite bool_decide_eq_true_2.
  - intros f sif ps Hf Hsif. destruct f; try done.
    by destruct Hsif as [->|Hsif]; [|destruct sif].
Qed.

Lemma resolver_exception_propagates_witness :
  @AddLayer.init example_collaborators (Some 3) None None tt = Raise ValueError
  ∧ @FunctionLayer.init example_collaborators (PyCallable (fun x : Z => Ok x))
      PyNone None (Some 3) None None tt = Raise ValueError
  ∧ @IdentityLayer.init example_collaborators None None tt = Raise ValueError.
Proof.
  destruct (@resolver_exception_propagates example_collaborators tt ValueError
    None None (Some 3) eq_refl) as [Hmany Hone].
  destruct (Hmany eq_refl) as (Hadd & _ & Hfun).
  destruct (Hone eq_refl) as (_ & Hid).
  split_and!; [exact Hadd| |exact Hid].
  apply Hfun; [reflexivity|by left].
Defined.

(** ** FunctionLayer: parameters and the wrapped function *)

Lemma py_comprehension_first_failure {A B} (f : A → result B)
    (l1 l2 : list A) (x : A) (e : exn) :
  Forall (fun y => ∃ z, f y = Ok z) l1 → f x = Raise e →
  py_comprehension f (l1 ++ x :: l2) = Raise e.
Proof.
  intros Hl1 Hx. induction Hl1 as [|y l1 [z Hy] _ IH]; simpl.
  - by rewrite Hx.
  - by rewrite Hy, IH.
Qed.

(** X13.  With the base class initialised, a callable [function], a
    [shape_inference_function] that is [None] or callable and the input shape
    resolved, the construction of a FunctionLayer with a list of parameters
    succeeds when every parameter registers, and then holds the given
    function and the resolved shape; otherwise it raises the exception of
    the first parameter whose registration fails. *)
Theorem function_init_parameters `{Collaborators}
    (f : value → result value)
    (shape_inference_function : pyarg (list pyelem → result (list pyelem)))
    (parameters : list parameter) (num_inputs : option Z)
    (dimensions : option dimensions_arg) (input_shape : option (list pyelem))
    (kwargs : layer_kwargs) (r : list pyelem * Z) :
  Layer_init kwargs = Ok tt →
  shape_inference_function = PyNone ∨ callable shape_inference_function = true →
  get_input_shape dimensions num_inputs input_shape = Ok r →
  (Forall (fun p => register_parameter p = Ok tt) parameters →
   ∃ self,
     FunctionLayer.init (PyCallable f) shape_inference_function (Some parameters)
       num_inputs dimensions input_shape kwargs = Ok self
     ∧ FunctionLayer.function self = f
     ∧ FunctionLayer.input_shape self = r.1
     ∧ FunctionLayer.num_inputs self = r.2)
  ∧ (∀ ps1 p ps2 e,
       parameters = ps1 ++ p :: ps2 →
       Forall (fun p => register_parameter p = Ok tt) ps1 →
       register_parameter p = Raise e →
       FunctionLayer.init (PyCallable f) shape_inference_function (Some parameters)
         num_inputs dimensions input_shape kwargs = Raise e).
Proof.
  intros Hbase Hsif Hshape. unfold FunctionLayer.init.
  rewrite Hbase, bind_Ok.
  assert (is_not_None shape_inference_function
          && negb (callable shape_inference_function) = false) as ->.
  { by destruct Hsif as [->|Hsif]; [|destruct shape_inference_function]. }
  rewrite Hshape, bind_Ok. unfold FunctionLayer.register_all. split.
  - intros Hall.
    destruct (py_comprehension_ok register_parameter parameters) as [us ->].
    { eapply Forall_impl; [exact Hall|]. intros p Hp. by exists tt. }
    rewrite !bind_Ok. by eexists.
  - intros ps1 p ps2 e -> Hps1 Hp.
    rewrite (py_comprehension_first_failure _ ps1 ps2 p e); [done| |done].
    eapply Forall_impl; [exact Hps1|]. intros q Hq. by exists tt.
Qed.

Lemma function_init_parameters_witness :
  let registry := {|
    layer_kwargs := unit; Layer_init := fun _ => Ok tt;
    dimensions_arg := Z;
    get_input_shape := fun _ _ _ => Ok ([Dim (Some 3)], 1);
    value := Z; parameter := bool;
    register_parameter := fun p => if p then Ok tt else Raise ValueError |} in
  (∃ self,
     @FunctionLayer.init registry (PyCallable (fun x : Z => Ok (x + 1))) PyNone
       (Some [true; true]) None None None tt = Ok self
     ∧ FunctionLayer.function self = (fun x : Z => Ok (x + 1))
     ∧ FunctionLayer.input_shape self = [Dim (Some 3)]
     ∧ FunctionLayer.num_inputs self = 1)
  ∧ @FunctionLayer.init registry (PyCallable (fun x : Z => Ok (x + 1))) PyNone
      (Some [true; false; true]) None None None tt = Raise ValueError.
Proof.
  intros registry. split.
  - apply (proj1 (@function_init_parameters registry (fun x : Z => Ok (x + 1))
      PyNone [true; true] None None None tt ([Dim (Some 3)], 1)
      eq_refl (or_introl eq_refl) eq_refl)).
    by repeat constructor.
  - apply (proj2 (@function_init_parameters registry (fun x : Z => Ok (x + 1))
      PyNone [true; false; true] None None None tt ([Dim (Some 3)], 1)
      eq_refl (or_introl eq_refl) eq_refl) [true] false [true] ValueError).
    + reflexivity.
    + by repeat constructor.
    + reflexivity.
Defined.

(** X14.  A FunctionLayer that has been constructed wraps a callable, and
    [feedforward] returns exactly what that callable returns or raises on
    the input; the shape inference function plays no part in it. *)
Theorem function_feedforward `{Collaborators}
    (function : pyarg (value → result value))
    (shape_inference_function : pyarg (list pyelem → result (list pyelem)))
    (parameters : option (list parameter)) (num_inputs : option Z)
    (dimensions : option dimensions_arg) (input_shape : option (list pyelem))
    (kwargs : layer_kwargs) (self : FunctionLayer.t) :
  FunctionLayer.init function shape_inference_function parameters num_inputs
    dimensions input_shape kwargs = Ok self →
  ∃ f, function = PyCallable f ∧ ∀ x, FunctionLayer.feedforward self x = f x.
Proof.
  unfold FunctionLayer.init, FunctionLayer.feedforward.
  destruct (Layer_init kwargs) as [[]|e]; [rewrite bind_Ok|done].
  destruct function as [|f|]; [done| |done].
  destruct (is_not_None shape_inference_function
            && negb (callable shape_inference_function)); [done|].
  destruct (get_input_shape dimensions num_inputs input_shape) as [r|e];
    [rewrite bind_Ok|done].
  destruct (FunctionLayer.register_all parameters) as [[]|e];
    [rewrite bind_Ok|done].
  intros [= <-]. by exists f.
Qed.

Lemma function_feedforward_witness :
  ∃ f : Z → result Z,
    PyCallable (fun x : Z => if x <? 0 then Raise ValueError else Ok (2 * x))
      = PyCallable f
    ∧ ∀ x,
        FunctionLayer.feedforward
          (@FunctionLayer.Build_t example_collaborators
             (fun x : Z => if x <? 0 then Raise ValueError else Ok (2 * x))
             (fun _input_shape => Ok _input_shape) [Dim (Some 2)] 1) x
        = f x.
Proof.
  exact (@function_feedforward example_collaborators
    (PyCallable (fun x : Z => if x <? 0 then Raise ValueError else Ok (2 * x)))
    PyNone (Some []) None None (Some [Dim (Some 2)]) tt _ eq_refl).
Defined.
